(** * SnapLock: the NVIDIA asset pipeline of [scripts/download_nvidia_assets.py]

    A shallow embedding of [AssetPipeline] (download, extraction, location,
    conversion, registry) and the properties the design document states about
    it.  The pipeline talks to a network, a file system and two external
    converters; these are an explicit [environment] (what the outside world
    answers) and an explicit [world] (what the pipeline can change), and every
    method is a function from the world to a result, a new world and the calls
    it made. *)

From Stdlib Require Import ZArith Ascii String.
From stdpp Require Import base list gmap strings sorting.

Set Warnings "-register-all".

Open Scope Z_scope.
Open Scope string_scope.
Open Scope list_scope.
Open Scope stdpp_scope.

(** ** Paths and names *)

(** A [pathlib.Path] is kept as its components (the path split at the
    separator); [str(path)] joins them again. *)
Definition path := list string.

Definition str_of_path (p : path) : string := String.concat "/" p.

(** [p / name] *)
Definition join (p : path) (name : string) : path := p ++ [name].
Infix "</>" := join (at level 50, left associativity).

(** [p.name]: the final component. *)
Definition name (p : path) : string := List.last p "".

(** [name.rfind('.')], as a position from the left. *)
Fixpoint rfind_dot (s : string) (i : nat) (found : option nat) : option nat :=
  match s with
  | EmptyString => found
  | String c r =>
      rfind_dot r (S i) (if Ascii.eqb c "."%char then Some i else found)
  end.

(** [p.stem]: the name without its last suffix; a leading or a trailing dot
    starts no suffix ([0 < i < len(name) - 1] in pathlib). *)
Definition stem (p : path) : string :=
  let n := name p in
  match rfind_dot n 0%nat None with
  | Some i =>
      if ((0 <? i)%nat && (i <? String.length n - 1)%nat)%bool
      then String.substring 0 i n else n
  | None => n
  end.

(** [fnmatch(name, '*' + ext)] for an extension without wildcard characters:
    the name ends with the extension (the comparison is by character, as on
    POSIX). *)
Definition ends_with (ext n : string) : bool :=
  String.prefix (String.rev ext) (String.rev n).

(** ** The pieces of [str] the metadata uses *)

Definition is_upper (c : ascii) : bool :=
  let n := nat_of_ascii c in ((65 <=? n)%nat && (n <=? 90)%nat)%bool.
Definition is_lower (c : ascii) : bool :=
  let n := nat_of_ascii c in ((97 <=? n)%nat && (n <=? 122)%nat)%bool.
Definition to_upper (c : ascii) : ascii :=
  if is_lower c then ascii_of_nat (nat_of_ascii c - 32) else c.
Definition to_lower (c : ascii) : ascii :=
  if is_upper c then ascii_of_nat (nat_of_ascii c + 32) else c.

(** [s.replace('_', ' ')] *)
Fixpoint replace_underscore (s : string) : string :=
  match s with
  | EmptyString => EmptyString
  | String c r =>
      String (if Ascii.eqb c "_"%char then " "%char else c) (replace_underscore r)
  end.

(** [s.title()] on ASCII text: a letter that follows a letter is lowered, any
    other letter is raised. *)
Fixpoint title_from (previous_is_cased : bool) (s : string) : string :=
  match s with
  | EmptyString => EmptyString
  | String c r =>
      if (is_lower c || is_upper c)%bool
      then String (if previous_is_cased then to_lower c else to_upper c)
                  (title_from true r)
      else String c (title_from false r)
  end.
Definition title (s : string) : string := title_from false s.

(** ** Data *)

(** One value of [NVIDIA_ASSETS]. *)
Record pack_config := PackConfig {
  url : string;
  category : string;
  physics : bool;
  description : string
}.

(** The [asset_metadata] dictionary of one converted asset. *)
Record asset := Asset {
  a_id : string;
  a_name : string;
  a_path : string;
  a_category : string;
  a_physics_enabled : bool;
  a_source : string;
  a_thumbnail : string
}.

(** [self.registry : Dict[str, List[Dict]]] *)
Abbreviation registry_t := (gmap string (list asset)).

(** What an extracted archive holds: files and directories, each directory
    with its entries in the order [os.scandir] lists them. *)
Inductive node :=
| File (n : string)
| Dir (n : string) (children : list node).

Definition node_name (x : node) : string :=
  match x with File n => n | Dir n _ => n end.

(** What a file holds: bytes, or the JSON text of a registry (kept as the
    registry it encodes). *)
Inductive content :=
| Raw (bytes : string)
| Json (reg : registry_t).

(** What stands at a path: a regular file or a directory tree.  The file
    system is flat: a path is looked up as a whole, and a tree that was
    extracted is stored at its root. *)
Inductive entry :=
| EFile (c : content)
| EDir (children : list node).

Abbreviation filesystem := (gmap path entry).

(** The exceptions the pipeline can meet; all derive from [Exception]. *)
Inductive exn :=
| ConnectionError                      (* requests.get could not connect *)
| HTTPError (status : Z)               (* response.raise_for_status() *)
| ValueError                           (* int(...) of a malformed header *)
| ChunkedEncodingError                 (* the body stream broke *)
| FileNotFoundError
| IsADirectoryError
| FileExistsError
| BadZipFile
| OSError                              (* the subprocess could not be started *)
| CalledProcessError (returncode : Z). (* check=True and a non-zero exit *)

(** The calls the properties talk about, in the order they are made. *)
Inductive event :=
| Processing (pack_id : string)          (* process_asset_pack entered *)
| PackFailed (pack_id : string) (e : exn) (* the except branch of run *)
| HttpGet (u : string)                   (* requests.get *)
| Converting (usd_file output_path : path) (* convert_usd_to_gltf entered *)
| Subprocess (argv : list string)        (* subprocess.run *)
| SaveRegistry (file : path).            (* save_registry entered *)

(** ** The outside world *)

(** The [content-length] header as [int(headers.get('content-length', 0))]
    reads it. *)
Inductive content_length :=
| NoLength
| Length (n : Z)
| MalformedLength.

(** The answer to a streaming GET: no connection, or a status line, the
    header, the chunks [iter_content] delivers and whether the stream breaks
    after the last of them. *)
Inductive http_outcome :=
| NoConnection
| Response (status : Z) (len : content_length) (chunks : list string) (broken : bool).

(** How a subprocess ends. *)
Inductive proc_outcome :=
| Exited (returncode : Z)
| NotStarted.

Record environment := Environment {
  which : string -> bool;                              (* shutil.which(tool) *)
  http_get : string -> http_outcome;                   (* by URL *)
  unzip : string -> option (list node);                (* by the archive's bytes *)
  spawn : list string -> filesystem -> proc_outcome    (* by argv and the files it can read *)
}.

(** What the pipeline changes: the file system and [self.registry]. *)
Record world := World {
  fs : filesystem;
  registry : registry_t
}.

(** ** Results, effects and exceptions *)

Inductive result (A : Type) :=
| Ok (a : A)
| Raise (e : exn).
Arguments Ok {A} a.
Arguments Raise {A} e.

(** One run of a method: how it ended, the world it left, the calls it made. *)
Record run_of (A : Type) := Run {
  outcome : result A;
  after : world;
  events : list event
}.
Arguments Run {A} _ _ _.
Arguments outcome {A} _.
Arguments after {A} _.
Arguments events {A} _.

Definition pipe (A : Type) : Type := world -> run_of A.

Definition ret {A} (a : A) : pipe A := fun w => Run (Ok a) w [].
Definition raise {A} (e : exn) : pipe A := fun w => Run (Raise e) w [].

Definition bind {A B} (m : pipe A) (k : A -> pipe B) : pipe B :=
  fun w =>
    match m w with
    | Run (Ok a) w1 evs1 =>
        match k a w1 with
        | Run o w2 evs2 => Run o w2 (evs1 ++ evs2)
        end
    | Run (Raise e) w1 evs1 => Run (Raise e) w1 evs1
    end.

(** [try: m  except Exception as e: h e] *)
Definition try_except {A} (m : pipe A) (h : exn -> pipe A) : pipe A :=
  fun w =>
    match m w with
    | Run (Ok a) w1 evs1 => Run (Ok a) w1 evs1
    | Run (Raise e) w1 evs1 =>
        match h e w1 with
        | Run o w2 evs2 => Run o w2 (evs1 ++ evs2)
        end
    end.

Notation "x <- m ;; k" := (bind m (fun x => k))
  (at level 100, m at next level, right associativity).
Notation "m ;; k" := (bind m (fun _ => k))
  (at level 100, right associativity).

Definition emit (e : event) : pipe unit := fun w => Run (Ok tt) w [e].
Definition get_fs : pipe filesystem := fun w => Run (Ok (fs w)) w [].
Definition put_fs (f : filesystem) : pipe unit :=
  fun w => Run (Ok tt) (World f (registry w)) [].
Definition get_registry : pipe registry_t := fun w => Run (Ok (registry w)) w [].
Definition put_registry (r : registry_t) : pipe unit :=
  fun w => Run (Ok tt) (World (fs w) r) [].

(** ** The file system calls the pipeline makes *)

(** [p.exists()] *)
Definition path_exists (f : filesystem) (p : path) : bool :=
  match f !! p with Some _ => true | None => false end.

(** [p.mkdir(exist_ok=True)]: nothing to do on a directory,
    [FileExistsError] on a regular file.  The file system is flat and keeps no
    parents: what [parents=True] creates, and the errors of a parent that is
    missing or is a regular file, are not modelled. *)
Definition mkdir_exist_ok (p : path) : pipe unit :=
  f <- get_fs ;;
  match f !! p with
  | None => put_fs (<[p := EDir []]> f)
  | Some (EDir _) => ret tt
  | Some (EFile _) => raise FileExistsError
  end.

(** Opening [p] for writing and leaving [c] in it: the file is created or
    replaced; a directory cannot be opened. *)
Definition write_file (p : path) (c : content) : pipe unit :=
  f <- get_fs ;;
  match f !! p with
  | Some (EDir _) => raise IsADirectoryError
  | _ => put_fs (<[p := EFile c]> f)
  end.

(** [for chunk in ...: f.write(chunk)] on the file opened at [p], which holds
    [written] so far. *)
Fixpoint write_chunks (p : path) (written : string) (chunks : list string) : pipe unit :=
  match chunks with
  | [] => ret tt
  | chunk :: rest =>
      write_file p (Raw (written +:+ chunk)) ;;
      write_chunks p (written +:+ chunk) rest
  end.

(** [response.raise_for_status()]: requests raises on the client and server
    error classes, [400 <= status < 600]. *)
Definition raise_for_status (status : Z) : pipe unit :=
  if ((400 <=? status)%Z && (status <? 600)%Z)%bool
  then raise (HTTPError status) else ret tt.

(** [int(response.headers.get('content-length', 0))] *)
Definition int_content_length (len : content_length) : pipe Z :=
  match len with
  | NoLength => ret 0
  | Length n => ret n
  | MalformedLength => raise ValueError
  end.

(** The entries of the directory [dir] that the pattern ['*' + ext] selects,
    in the order the directory lists them.  Matching looks at the name only,
    so a directory is selected like a file. *)
Definition matching (ext : string) (dir : path) (children : list node) : list path :=
  List.map (fun x => dir </> node_name x)
           (List.filter (fun x => ends_with ext (node_name x)) children).

(** What [rglob] yields inside the entry [x] of [parent]: nothing for a file;
    for a directory its own matching entries, then its subdirectories in
    turn. *)
Fixpoint rglob_below (ext : string) (parent : path) (x : node) : list path :=
  match x with
  | File _ => []
  | Dir n sub =>
      matching ext (parent </> n) sub
      ++ List.flat_map (rglob_below ext (parent </> n)) sub
  end.

(** [Path.rglob('*' + ext)] on a directory [dir] with entries [children]. *)
Definition rglob (ext : string) (dir : path) (children : list node) : list path :=
  matching ext dir children ++ List.flat_map (rglob_below ext dir) children.

(** [directory.rglob(...)] on the file system: nothing below a path that is
    no directory. *)
Definition path_rglob (f : filesystem) (directory : path) (ext : string) : list path :=
  match f !! directory with
  | Some (EDir children) => rglob ext directory children
  | _ => []
  end.

Definition usd_extensions : list string := [".usd"; ".usda"; ".usdc"; ".usdz"].

Definition nl : string := String "010"%char EmptyString.
Definition dquote : string := String "034"%char EmptyString.

(** The text of the script handed to Blender. *)
Definition blender_script (usd_file output_path : path) : string :=
  nl +:+ "import bpy" +:+ nl
  +:+ "bpy.ops.wm.usd_import(filepath=" +:+ dquote +:+ str_of_path usd_file +:+ dquote +:+ ")" +:+ nl
  +:+ "bpy.ops.export_scene.gltf(filepath=" +:+ dquote +:+ str_of_path output_path +:+ dquote
  +:+ ", export_format='GLB')" +:+ nl
  +:+ "bpy.ops.wm.quit_blender()" +:+ nl.

(** The curated packs, in the order of the dictionary. *)
Definition NVIDIA_ASSETS : list (string * pack_config) :=
  [ ("simready_warehouse_01",
     PackConfig
       "https://omniverse-content-production.s3-us-west-2.amazonaws.com/Assets/ArchVis/Commercial/Warehouse/SimReady_Props_Warehouse_01.zip"
       "warehouse" true
       "Physics-enabled warehouse props (pallets, crates, barrels)");
    ("simready_containers",
     PackConfig
       "https://omniverse-content-production.s3-us-west-2.amazonaws.com/Assets/ArchVis/Industrial/Shipping_Containers/SimReady_Containers_and_Shipping_01.zip"
       "industrial" true
       "Industrial shipping containers and cargo boxes");
    ("simready_furniture",
     PackConfig
       "https://omniverse-content-production.s3-us-west-2.amazonaws.com/Assets/ArchVis/Commercial/Furniture/SimReady_Furniture_and_Misc.zip"
       "furniture" true
       "Interior and exterior furniture with physics") ].

(** ** [class AssetPipeline] *)

Section AssetPipeline.

Variable env : environment.
Variable base_dir : path.

Definition download_dir : path := base_dir </> "downloads" </> "usd".
Definition output_dir : path := base_dir </> "public" </> "assets".
Definition metadata_file : path := output_dir </> "asset_registry.json".

(** [__init__]: the two directories and an empty registry. *)
Definition init : pipe unit :=
  mkdir_exist_ok download_dir ;;
  mkdir_exist_ok output_dir ;;
  put_registry ∅.

Definition download_asset_pack (pack_id : string) (config : pack_config) : pipe path :=
  let zip_path := download_dir </> (pack_id +:+ ".zip") in
  f <- get_fs ;;
  if path_exists f zip_path then ret zip_path
  else
    try_except
      (emit (HttpGet (url config)) ;;
       match http_get env (url config) with
       | NoConnection => raise ConnectionError
       | Response status len chunks broken =>
           raise_for_status status ;;
           total_size <- int_content_length len ;;
           write_file zip_path (Raw "") ;;
           write_chunks zip_path "" chunks ;;
           if broken then raise ChunkedEncodingError else ret zip_path
       end)
      (fun e => raise e).

Definition extract_pack (zip_path : path) (pack_id : string) : pipe path :=
  let extract_dir := download_dir </> pack_id in
  f <- get_fs ;;
  if path_exists f extract_dir then ret extract_dir
  else
    try_except
      (match f !! zip_path with
       | None => raise FileNotFoundError
       | Some (EDir _) => raise IsADirectoryError
       | Some (EFile (Json _)) => raise BadZipFile
       | Some (EFile (Raw bytes)) =>
           match unzip env bytes with
           | None => raise BadZipFile
           | Some tree =>
               put_fs (<[extract_dir := EDir tree]> f) ;;
               ret extract_dir
           end
       end)
      (fun e => raise e).

Definition find_usd_files (directory : path) : pipe (list path) :=
  f <- get_fs ;;
  ret (fold_left (fun usd_files ext => usd_files ++ path_rglob f directory ext)
                 usd_extensions []).

(** [subprocess.run(argv, check=True, capture_output=True)].  Of the process
    only its end is kept ([spawn]); the files a converter writes are not
    tracked in the world. *)
Definition subprocess_run (argv : list string) : pipe unit :=
  emit (Subprocess argv) ;;
  f <- get_fs ;;
  match spawn env argv f with
  | Exited code => if (code =? 0)%Z then ret tt else raise (CalledProcessError code)
  | NotStarted => raise OSError
  end.

(** [try: m  except subprocess.CalledProcessError: h] *)
Definition except_called_process_error {A} (m h : pipe A) : pipe A :=
  try_except m (fun e => match e with CalledProcessError _ => h | _ => raise e end).

Definition usd2gltf_argv (usd_file output_path : path) : list string :=
  ["usd2gltf"; str_of_path usd_file; "-o"; str_of_path output_path].

Definition script_path : path := download_dir </> "convert.py".

Definition blender_argv : list string :=
  ["blender"; "--background"; "--python"; str_of_path script_path].

(** [convert_usd_to_gltf]; [Some b] is a [return b] that was reached, [None]
    falls through to the next statement. *)
Definition convert_usd_to_gltf (usd_file output_path : path) : pipe bool :=
  emit (Converting usd_file output_path) ;;
  returned <-
    (if which env "usd2gltf" then
       except_called_process_error
         (subprocess_run (usd2gltf_argv usd_file output_path) ;;
          ret (Some true))
         (ret None)
     else ret None) ;;
  match returned with
  | Some b => ret b
  | None =>
      returned <-
        (if which env "blender" then
           except_called_process_error
             (write_file script_path (Raw (blender_script usd_file output_path)) ;;
              subprocess_run blender_argv ;;
              ret (Some true))
             (ret None)
         else ret None) ;;
      match returned with
      | Some b => ret b
      | None => ret false
      end
  end.

Definition generate_thumbnail (gltf_path thumbnail_path : path) : pipe bool :=
  ret false.

Definition asset_metadata (pack_id : string) (config : pack_config) (asset_name : string) : asset :=
  {| a_id := pack_id +:+ "_" +:+ asset_name;
     a_name := title (replace_underscore asset_name);
     a_path := "/assets/" +:+ category config +:+ "/" +:+ asset_name +:+ ".glb";
     a_category := category config;
     a_physics_enabled := physics config;
     a_source := "NVIDIA Omniverse";
     a_thumbnail := "/assets/" +:+ category config +:+ "/" +:+ asset_name +:+ "_thumb.jpg" |}.

Definition gltf_output (config : pack_config) (usd_file : path) : path :=
  output_dir </> category config </> (stem usd_file +:+ ".glb").

(** The [for] loop of [process_asset_pack] over the files still to visit. *)
Fixpoint convert_each (pack_id : string) (config : pack_config)
    (usd_files : list path) (converted_assets : list asset) : pipe (list asset) :=
  match usd_files with
  | [] => ret converted_assets
  | usd_file :: rest =>
      let asset_name := stem usd_file in
      converted <- convert_usd_to_gltf usd_file (gltf_output config usd_file) ;;
      convert_each pack_id config rest
        (if converted
         then converted_assets ++ [asset_metadata pack_id config asset_name]
         else converted_assets)
  end.

(** The registry update that ends [process_asset_pack]. *)
Definition record (cat : string) (converted_assets : list asset) : pipe unit :=
  reg <- get_registry ;;
  (match reg !! cat with
   | None => put_registry (<[cat := []]> reg)
   | Some _ => ret tt
   end) ;;
  reg <- get_registry ;;
  put_registry (alter (fun l => l ++ converted_assets) cat reg).

Definition process_asset_pack (pack_id : string) (config : pack_config) : pipe unit :=
  emit (Processing pack_id) ;;
  zip_path <- download_asset_pack pack_id config ;;
  extract_dir <- extract_pack zip_path pack_id ;;
  usd_files <- find_usd_files extract_dir ;;
  mkdir_exist_ok (output_dir </> category config) ;;
  converted_assets <- convert_each pack_id config (take 10 usd_files) [] ;;
  record (category config) converted_assets.

Definition save_registry : pipe unit :=
  emit (SaveRegistry metadata_file) ;;
  reg <- get_registry ;;
  write_file metadata_file (Json reg).

(** The loop of [run] over the packs still to visit. *)
Fixpoint run_packs (packs : list (string * pack_config)) : pipe unit :=
  match packs with
  | [] => ret tt
  | (pack_id, config) :: rest =>
      try_except (process_asset_pack pack_id config)
                 (fun e => emit (PackFailed pack_id e)) ;;
      run_packs rest
  end.

(** [run], over any catalogue of packs; the script runs it over
    [NVIDIA_ASSETS]. *)
Definition run (packs : list (string * pack_config)) : pipe unit :=
  run_packs packs ;;
  save_registry.

Definition main : pipe unit := init ;; run NVIDIA_ASSETS.

End AssetPipeline.

(** ** What the properties observe *)

(** The packs whose processing was started, in order. *)
Definition started (evs : list event) : list string :=
  omap (fun e => match e with Processing pack_id => Some pack_id | _ => None end) evs.

(** The packs whose processing ended in the except branch of [run]. *)
Definition failed (evs : list event) : list string :=
  omap (fun e => match e with PackFailed pack_id _ => Some pack_id | _ => None end) evs.

(** The calls of [save_registry]. *)
Definition saves (evs : list event) : list path :=
  omap (fun e => match e with SaveRegistry file => Some file | _ => None end) evs.

(** The network calls. *)
Definition network_calls (evs : list event) : list string :=
  omap (fun e => match e with HttpGet u => Some u | _ => None end) evs.

(** The files handed to the converter, in order. *)
Definition conversions (evs : list event) : list path :=
  omap (fun e => match e with Converting usd_file _ => Some usd_file | _ => None end) evs.

(** The subprocesses that were run. *)
Definition subprocesses (evs : list event) : list (list string) :=
  omap (fun e => match e with Subprocess argv => Some argv | _ => None end) evs.

(** A pack is cataloged when [process_asset_pack] returns, and failed when
    an exception leaves it. *)
Inductive pack_state := CATALOGED | FAILED.

Definition final_state (r : run_of unit) : pack_state :=
  match outcome r with Ok _ => CATALOGED | Raise _ => FAILED end.

(** The category's sequence in a registry; a category never recorded has
    none, which reads as empty. *)
Definition entries (reg : registry_t) (cat : string) : list asset :=
  default [] (reg !! cat).

(** Every entry below a directory, in the order one recursive scan meets
    them: the entries of the directory, then the inside of each of its
    subdirectories in turn. *)
Fixpoint walk_below (parent : path) (x : node) : list path :=
  match x with
  | File _ => []
  | Dir n sub =>
      List.map (fun y => parent </> n </> node_name y) sub
      ++ List.flat_map (walk_below (parent </> n)) sub
  end.

Definition walk (dir : path) (children : list node) : list path :=
  List.map (fun y => dir </> node_name y) children
  ++ List.flat_map (walk_below dir) children.

Definition scan (f : filesystem) (directory : path) : list path :=
  match f !! directory with
  | Some (EDir children) => walk directory children
  | _ => []
  end.

(** The same scan, keeping the entries of one kind only: the regular files,
    or the directories. *)
Definition is_file (x : node) : bool :=
  match x with File _ => true | Dir _ _ => false end.
Definition is_dir (x : node) : bool := negb (is_file x).

Fixpoint walk_below_of (keep : node -> bool) (parent : path) (x : node) : list path :=
  match x with
  | File _ => []
  | Dir n sub =>
      List.map (fun y => parent </> n </> node_name y) (List.filter keep sub)
      ++ List.flat_map (walk_below_of keep (parent </> n)) sub
  end.

Definition walk_of (keep : node -> bool) (dir : path) (children : list node) : list path :=
  List.map (fun y => dir </> node_name y) (List.filter keep children)
  ++ List.flat_map (walk_below_of keep dir) children.

Definition scan_of (keep : node -> bool) (f : filesystem) (directory : path) : list path :=
  match f !! directory with
  | Some (EDir children) => walk_of keep directory children
  | _ => []
  end.

Definition scan_files : filesystem -> path -> list path := scan_of is_file.
Definition scan_dirs : filesystem -> path -> list path := scan_of is_dir.

(** A name with one of the four scene-description extensions. *)
Definition has_extension (ext : string) (p : path) : bool := ends_with ext (name p).
Definition scene_file (p : path) : bool :=
  existsb (fun ext => has_extension ext p) usd_extensions.

(** The part of [process_asset_pack] up to the locator, and the sequence the
    locator returned there (none when it was not reached). *)
Definition locate (env : environment) (base_dir : path)
    (pack_id : string) (config : pack_config) : pipe (list path) :=
  emit (Processing pack_id) ;;
  zip_path <- download_asset_pack env base_dir pack_id config ;;
  extract_dir <- extract_pack env base_dir zip_path pack_id ;;
  find_usd_files extract_dir.

Definition located (env : environment) (base_dir : path)
    (pack_id : string) (config : pack_config) (w : world) : list path :=
  match outcome (locate env base_dir pack_id config w) with
  | Ok usd_files => usd_files
  | Raise _ => []
  end.

(** The bytes of a body delivered in chunks. *)
Definition body (chunks : list string) : string := foldr String.append "" chunks.

(** The archive path of a pack. *)
Definition zip_path_of (base_dir : path) (pack_id : string) : path :=
  download_dir base_dir </> (pack_id +:+ ".zip").

(** The statement of the design document about a failed status, as it is
    worded: whenever the archive is missing and the response has a status
    outside 200..299, the download raises and leaves no file at the archive
    path. *)
Definition no_file_on_non_2xx : Prop :=
  forall env base_dir pack_id config w status len chunks broken,
    path_exists (fs w) (zip_path_of base_dir pack_id) = false ->
    http_get env (url config) = Response status len chunks broken ->
    ~ (200 <= status < 300) ->
    let r := download_asset_pack env base_dir pack_id config w in
    (exists e, outcome r = Raise e)
    /\ path_exists (fs (after r)) (zip_path_of base_dir pack_id) = false.

(** The calls made inside the processing of one pack: they start no pack and
    save no registry. *)
Definition inner_call (e : event) : Prop :=
  match e with
  | HttpGet _ | Converting _ _ | Subprocess _ => True
  | Processing _ | PackFailed _ _ | SaveRegistry _ => False
  end.

(** The run of the Blender strategy after the calls [before]: what
    [convert_usd_to_gltf] does once the first strategy was skipped or has
    failed. *)
Definition blender_fallback (env : environment) (base_dir : path)
    (usd_file output_path : path) (w : world) (before : list event) : run_of bool :=
  let scripted :=
    <[script_path base_dir := EFile (Raw (blender_script usd_file output_path))]> (fs w) in
  if which env "blender" then
    match fs w !! script_path base_dir with
    | Some (EDir _) => Run (Raise IsADirectoryError) w before
    | _ =>
        match spawn env (blender_argv base_dir) scripted with
        | Exited code =>
            Run (Ok (code =? 0)%Z) (World scripted (registry w))
                (before ++ [Subprocess (blender_argv base_dir)])
        | NotStarted =>
            Run (Raise OSError) (World scripted (registry w))
                (before ++ [Subprocess (blender_argv base_dir)])
        end
    end
  else Run (Ok false) w before.

(** The statement of the design document about failing converters, as it is
    worded: when each converter is either not installed or fails, the
    conversion returns false and raises nothing; a converter fails when it
    does not end with exit status zero. *)
Definition failed_converters_return_false : Prop :=
  forall env base_dir usd_file output_path w,
    let scripted :=
      <[script_path base_dir := EFile (Raw (blender_script usd_file output_path))]> (fs w) in
    let first_fails :=
      which env "usd2gltf" = true
      /\ spawn env (usd2gltf_argv usd_file output_path) (fs w) <> Exited 0 in
    let second_fails :=
      which env "blender" = true
      /\ spawn env (blender_argv base_dir) scripted <> Exited 0 in
    which env "usd2gltf" = false \/ first_fails ->
    which env "blender" = false \/ second_fails ->
    outcome (convert_usd_to_gltf env base_dir usd_file output_path w) = Ok false.

(** The statement of the design document about the locator, as it is worded:
    the scene files in the order of one recursive scan. *)
Definition locator_in_scan_order : Prop :=
  forall directory w,
    outcome (find_usd_files directory w)
    = Ok (List.filter scene_file (scan_files (fs w) directory)).

(** The calls of the part of [process_asset_pack] that fetches and locates. *)
Definition fetch_call (e : event) : Prop :=
  match e with
  | Processing _ | HttpGet _ => True
  | PackFailed _ _ | Converting _ _ | Subprocess _ | SaveRegistry _ => False
  end.

(** The part of [process_asset_pack] before its conversion loop: locating
    the scene files and making the category directory. *)
Definition prepare (env : environment) (base_dir : path)
    (pack_id : string) (config : pack_config) : pipe unit :=
  usd_files <- locate env base_dir pack_id config ;;
  mkdir_exist_ok (output_dir base_dir </> category config).

(** The metadata recorded for the scene files [usd_files] of a pack. *)
Definition metadata_of (pack_id : string) (config : pack_config)
    (usd_files : list path) : list asset :=
  List.map (fun usd_file => asset_metadata pack_id config (stem usd_file)) usd_files.

(** How the conversion attempts on [usd_files] end, one after the other from
    the world [s]: each attempt starts in the world the one before it left,
    and an attempt that raises is the last. *)
Fixpoint attempts (env : environment) (base_dir : path) (config : pack_config)
    (usd_files : list path) (s : world) : list (result bool) :=
  match usd_files with
  | [] => []
  | usd_file :: rest =>
      match convert_usd_to_gltf env base_dir usd_file
              (gltf_output base_dir config usd_file) s with
      | Run (Ok converted) s1 _ => Ok converted :: attempts env base_dir config rest s1
      | Run (Raise e) _ _ => [Raise e]
      end
  end.

(** Every attempt returned a boolean: none raised. *)
Definition all_returned (results : list (result bool)) : Prop :=
  forall e, Raise e ∉ results.

(** An attempt that failed: it returned false. *)
Definition returned_false (o : result bool) : bool :=
  match o with Ok false => true | _ => false end.

(** The files whose attempt returned true. *)
Fixpoint picked (usd_files : list path) (results : list (result bool)) : list path :=
  match usd_files, results with
  | usd_file :: rest, Ok true :: results' => usd_file :: picked rest results'
  | _ :: rest, _ :: results' => picked rest results'
  | _, _ => []
  end.

(** The statement of the design document about per-asset isolation, as it is
    worded: a pack that reaches its conversion loop with [N] located scene
    files, of which [M < N] fail conversion (every attempt returning a
    boolean), is cataloged with [N - M] new entries under its category. *)
Definition isolation_counts_all_located : Prop :=
  forall env base_dir pack_id config w,
    let usd_files := located env base_dir pack_id config w in
    let start := after (prepare env base_dir pack_id config w) in
    let results := attempts env base_dir config usd_files start in
    let N := length usd_files in
    let M := length (List.filter returned_false results) in
    outcome (prepare env base_dir pack_id config w) = Ok tt ->
    all_returned results ->
    (M < N)%nat ->
    let r := process_asset_pack env base_dir pack_id config w in
    final_state r = CATALOGED
    /\ length (entries (registry (after r)) (category config))
       = (length (entries (registry w) (category config)) + (N - M))%nat.

(** ** Properties of methods

    A method keeps the registry when no run of it changes it. *)
Definition keeps_registry {A} (m : pipe A) : Prop :=
  forall w, registry (after (m w)) = registry w.

(** An exception leaves the registry as the method found it. *)
Definition raise_keeps_registry {A} (m : pipe A) : Prop :=
  forall w e, outcome (m w) = Raise e -> registry (after (m w)) = registry w.

(** A method emits only calls of one kind. *)
Definition emits {A} (P : event -> Prop) (m : pipe A) : Prop :=
  forall w, Forall P (events (m w)).

(** ** More of what the methods keep

    A method never deletes when every path that exists before a run of it
    exists after the run. *)
Definition never_deletes {A} (m : pipe A) : Prop :=
  forall w p, path_exists (fs w) p = true -> path_exists (fs (after (m w))) p = true.

(** The calls of a conversion: the converter entered, a subprocess run. *)
Definition conversion_call (e : event) : Prop :=
  match e with
  | Converting _ _ | Subprocess _ => True
  | Processing _ | PackFailed _ _ | HttpGet _ | SaveRegistry _ => False
  end.

(** Any call but a network call. *)
Definition local_call (e : event) : Prop :=
  match e with HttpGet _ => False | _ => True end.

(** An entry as [process_asset_pack] files it under the category [cat]. *)
Definition filed_under (cat : string) (a : asset) : Prop :=
  a_category a = cat /\ a_source a = "NVIDIA Omniverse".

(** Every entry of the registry stands under its own category. *)
Definition well_filed (reg : registry_t) : Prop :=
  forall cat l, reg !! cat = Some l -> Forall (filed_under cat) l.

(** The registry [reg'] continues [reg]: every category's sequence starts
    with the sequence it had. *)
Definition continues (reg reg' : registry_t) : Prop :=
  forall cat, entries reg cat `prefix_of` entries reg' cat.

(** The part of [process_asset_pack] after the download, with the archive
    path in hand. *)
Definition after_download (env : environment) (base_dir : path)
    (pack_id : string) (config : pack_config) (zip_path : path) : pipe unit :=
  extract_dir <- extract_pack env base_dir zip_path pack_id ;;
  usd_files <- find_usd_files extract_dir ;;
  mkdir_exist_ok (output_dir base_dir </> category config) ;;
  converted_assets <- convert_each env base_dir pack_id config (take 10 usd_files) [] ;;
  record (category config) converted_assets.

(** What processing one pack can do to the registry: nothing, or append to
    the pack's category at most ten entries filed under it. *)
Definition pack_update (config : pack_config) (reg reg' : registry_t) : Prop :=
  reg' = reg
  \/ exists assets,
       (length assets <= 10)%nat
       /\ Forall (filed_under (category config)) assets
       /\ reg' = <[category config := entries reg (category config) ++ assets]> reg.

(** The packs of a catalogue that go under the category [cat]. *)
Definition packs_under (cat : string) (packs : list (string * pack_config))
    : list (string * pack_config) :=
  List.filter (fun pack => bool_decide (category pack.2 = cat)) packs.

(** ** Sample environments

    Concrete worlds on which the properties below are exercised. *)

Module Samples.

Definition base : path := ["srv"].

Definition warehouse : pack_config :=
  PackConfig "https://example.test/p1.zip" "warehouse" true "sample pack".

Definition empty_world : world := World ∅ ∅.

(** No network and no converter. *)
Definition offline : environment :=
  Environment (fun _ => false) (fun _ => NoConnection) (fun _ => None)
              (fun _ _ => NotStarted).

(** The archive of pack [p1] is already in the download directory. *)
Definition downloaded_world : world :=
  World {[ download_dir base </> "p1.zip" := EFile (Raw "PK") ]} ∅.

(** The scenario of the design document: no [usd2gltf]; Blender is installed
    and converts [a.usd] of pack [p1] but fails on every other file; the
    archive of every URL but [https://example.test/down.zip] can be fetched
    and holds [a.usd] and [b.usd]. *)
Definition studio : environment :=
  Environment
    (fun tool => String.eqb tool "blender")
    (fun u => if String.eqb u "https://example.test/down.zip" then NoConnection
              else Response 200 NoLength ["PK"; "data"] false)
    (fun _ => Some [File "a.usd"; File "b.usd"])
    (fun argv f =>
       match f !! script_path base with
       | Some (EFile (Raw script)) =>
           if String.eqb script
                (blender_script (download_dir base </> "p1" </> "a.usd")
                   (output_dir base </> "warehouse" </> "a.glb"))
           then Exited 0 else Exited 1
       | _ => NotStarted
       end).

Definition unreachable : pack_config :=
  PackConfig "https://example.test/down.zip" "industrial" true "pack that cannot be fetched".

(** A server that answers 304 with a body. *)
Definition not_modified : environment :=
  Environment (fun _ => false)
    (fun _ => Response 304 NoLength ["<html>"; "not modified"; "</html>"] false)
    (fun _ => None) (fun _ _ => NotStarted).

(** A server that answers 404. *)
Definition not_found : environment :=
  Environment (fun _ => false)
    (fun _ => Response 404 (Length 9) ["not found"] false)
    (fun _ => None) (fun _ _ => NotStarted).

(** The tree of pack [p1] is extracted and lists [a.usda] before [b.usd]. *)
Definition mixed_world : world :=
  World {[ download_dir base </> "p1" := EDir [File "a.usda"; File "b.usd"] ]} ∅.

(** The tree of pack [p1] holds a directory named like a scene file. *)
Definition bundle_world : world :=
  World {[ download_dir base </> "p1"
             := EDir [Dir "old.usd" [File "notes.txt"]; File "b.usd"] ]} ∅.

(** A pack of eleven scene files, every one of which [usd2gltf] converts. *)
Definition bulk : environment :=
  Environment
    (fun tool => String.eqb tool "usd2gltf")
    (fun _ => Response 200 (Length 2) ["PK"] false)
    (fun _ => Some [File "f01.usd"; File "f02.usd"; File "f03.usd"; File "f04.usd";
                    File "f05.usd"; File "f06.usd"; File "f07.usd"; File "f08.usd";
                    File "f09.usd"; File "f10.usd"; File "f11.usd"])
    (fun _ _ => Exited 0).

(** Both converters are installed, and neither can be started. *)
Definition unstartable : environment :=
  Environment (fun _ => true) (fun _ => NoConnection) (fun _ => None)
              (fun _ _ => NotStarted).

(** A world in which an earlier conversion left its script behind. *)
Definition scripted_world : world :=
  World {[ script_path base := EFile (Raw "import bpy  # an earlier conversion") ]} ∅.

(** A server whose body breaks after two chunks. *)
Definition flaky : environment :=
  Environment (fun _ => false)
    (fun _ => Response 200 (Length 100) ["PK"; "half"] true)
    (fun _ => None) (fun _ _ => NotStarted).

(** A server that sends a content-length that is no number. *)
Definition garbled : environment :=
  Environment (fun _ => false)
    (fun _ => Response 200 MalformedLength ["PK"] false)
    (fun _ => None) (fun _ _ => NotStarted).

(** The tree of pack [p1] is extracted; its archive is gone. *)
Definition extracted_world : world :=
  World {[ download_dir base </> "p1" := EDir [File "a.usd"] ]} ∅.

(** A directory stands where the archive of pack [p1] is expected. *)
Definition directory_archive_world : world :=
  World {[ download_dir base </> "p1.zip" := EDir [] ]} ∅.

(** The archive and a tree without scene files of pack [p1] are there. *)
Definition barren_world : world :=
  World {[ download_dir base </> "p1.zip" := EFile (Raw "PK");
           download_dir base </> "p1" := EDir [File "readme.txt"] ]} ∅.

End Samples.

(** ** Reasoning about runs *)

Lemma bind_assoc {A B C} (m : pipe A) (k : A -> pipe B) (h : B -> pipe C) w :
  bind (bind m k) h w = bind m (fun a => bind (k a) h) w.
Proof.
  unfold bind. destruct (m w) as [[a|e] w1 ev1]; [|done].
  destruct (k a w1) as [[b|e] w2 ev2]; [|done].
  destruct (h b w2) as [o w3 ev3]. by rewrite app_assoc.
Qed.

(** A bind that raised: either its first part raised, or the first part
    returned and the continuation raised. *)
Lemma bind_raise_inv {A B} (m : pipe A) (k : A -> pipe B) w e :
  outcome (bind m k w) = Raise e ->
  (outcome (m w) = Raise e /\ after (bind m k w) = after (m w))
  \/ exists a, outcome (m w) = Ok a
       /\ outcome (k a (after (m w))) = Raise e
       /\ after (bind m k w) = after (k a (after (m w))).
Proof.
  unfold bind. destruct (m w) as [[a|e'] w1 ev1]; simpl.
  - destruct (k a w1) as [o w2 ev2] eqn:Hk. simpl. intros ->. right.
    exists a. by rewrite Hk.
  - intros [= ->]. by left.
Qed.

(** The file-system calls, case by case. *)
Lemma write_file_run p c w :
  write_file p c w
  = match fs w !! p with
    | Some (EDir _) => Run (Raise IsADirectoryError) w []
    | _ => Run (Ok tt) (World (<[p := EFile c]> (fs w)) (registry w)) []
    end.
Proof.
  unfold write_file, bind, get_fs. by destruct (fs w !! p) as [[]|].
Qed.

Lemma mkdir_exist_ok_run p w :
  mkdir_exist_ok p w
  = match fs w !! p with
    | None => Run (Ok tt) (World (<[p := EDir []]> (fs w)) (registry w)) []
    | Some (EDir _) => Run (Ok tt) w []
    | Some (EFile _) => Run (Raise FileExistsError) w []
    end.
Proof.
  unfold mkdir_exist_ok, bind, get_fs. by destruct (fs w !! p) as [[]|].
Qed.

(** *** Methods that leave the registry alone *)

Create HintDb pipe discriminated.

Lemma keeps_ret {A} (a : A) : keeps_registry (ret a).
Proof. done. Qed.
Lemma keeps_raise {A} e : keeps_registry (@raise A e).
Proof. done. Qed.
Lemma keeps_emit e : keeps_registry (emit e).
Proof. done. Qed.
Lemma keeps_get_fs : keeps_registry get_fs.
Proof. done. Qed.
Lemma keeps_put_fs f : keeps_registry (put_fs f).
Proof. done. Qed.
Lemma keeps_get_registry : keeps_registry get_registry.
Proof. done. Qed.

Lemma keeps_bind {A B} (m : pipe A) (k : A -> pipe B) :
  keeps_registry m -> (forall a, keeps_registry (k a)) -> keeps_registry (bind m k).
Proof.
  intros Hm Hk w. unfold bind. specialize (Hm w).
  destruct (m w) as [[a|e] w1 ev1]; simpl in *; [|done].
  specialize (Hk a w1). destruct (k a w1) as [o w2 ev2]. simpl in *. congruence.
Qed.

Lemma keeps_try_except {A} (m : pipe A) (h : exn -> pipe A) :
  keeps_registry m -> (forall e, keeps_registry (h e)) -> keeps_registry (try_except m h).
Proof.
  intros Hm Hh w. unfold try_except. specialize (Hm w).
  destruct (m w) as [[a|e] w1 ev1]; simpl in *; [done|].
  specialize (Hh e w1). destruct (h e w1) as [o w2 ev2]. simpl in *. congruence.
Qed.

#[export] Hint Resolve keeps_ret keeps_raise keeps_emit keeps_get_fs keeps_put_fs
  keeps_get_registry : pipe.

Ltac keeps_step :=
  first [ solve [auto with pipe]
        | apply keeps_bind; [|intros ?]
        | apply keeps_try_except; [|intros ?] ].

Lemma keeps_mkdir_exist_ok p : keeps_registry (mkdir_exist_ok p).
Proof.
  unfold mkdir_exist_ok. keeps_step; [keeps_step|].
  destruct (_ !! _) as [[]|]; auto with pipe.
Qed.

Lemma keeps_write_file p c : keeps_registry (write_file p c).
Proof.
  unfold write_file. keeps_step; [keeps_step|].
  destruct (_ !! _) as [[]|]; auto with pipe.
Qed.

Lemma keeps_write_chunks p written chunks : keeps_registry (write_chunks p written chunks).
Proof.
  revert written. induction chunks as [|c rest IH]; intros written; simpl.
  - auto with pipe.
  - apply keeps_bind; [apply keeps_write_file | intros _; apply IH].
Qed.

Lemma keeps_raise_for_status status : keeps_registry (raise_for_status status).
Proof. unfold raise_for_status. destruct (_ && _)%bool; auto with pipe. Qed.

Lemma keeps_int_content_length len : keeps_registry (int_content_length len).
Proof. destruct len; simpl; auto with pipe. Qed.

#[export] Hint Resolve keeps_mkdir_exist_ok keeps_write_file keeps_write_chunks
  keeps_raise_for_status keeps_int_content_length : pipe.

Section Frame.

Variable env : environment.
Variable base_dir : path.

Lemma keeps_download_asset_pack pack_id config :
  keeps_registry (download_asset_pack env base_dir pack_id config).
Proof.
  unfold download_asset_pack. keeps_step; [keeps_step|].
  destruct (path_exists _ _); [keeps_step|].
  keeps_step; [|keeps_step]. keeps_step; [keeps_step|].
  destruct (http_get _ _) as [|status len chunks broken]; [keeps_step|].
  repeat keeps_step. destruct broken; keeps_step.
Qed.

Lemma keeps_extract_pack zip_path pack_id :
  keeps_registry (extract_pack env base_dir zip_path pack_id).
Proof.
  unfold extract_pack. keeps_step; [keeps_step|].
  destruct (path_exists _ _); [keeps_step|].
  keeps_step; [|keeps_step].
  destruct (_ !! _) as [[[bytes|]|]|]; try keeps_step.
  destruct (unzip _ _); repeat keeps_step.
Qed.

Lemma keeps_find_usd_files directory :
  keeps_registry (find_usd_files directory).
Proof. unfold find_usd_files. repeat keeps_step. Qed.

Lemma keeps_subprocess_run argv : keeps_registry (subprocess_run env argv).
Proof.
  unfold subprocess_run. do 2 (keeps_step; [keeps_step|]).
  destruct (spawn _ _ _) as [code|]; [|keeps_step].
  destruct (code =? 0)%Z; keeps_step.
Qed.

Lemma keeps_except_called_process_error {A} (m h : pipe A) :
  keeps_registry m -> keeps_registry h ->
  keeps_registry (except_called_process_error m h).
Proof.
  intros Hm Hh. apply keeps_try_except; [done|]. intros []; auto with pipe.
Qed.

Lemma keeps_convert_usd_to_gltf usd_file output_path :
  keeps_registry (convert_usd_to_gltf env base_dir usd_file output_path).
Proof.
  pose proof keeps_subprocess_run.
  unfold convert_usd_to_gltf.
  apply keeps_bind; [keeps_step | intros _].
  apply keeps_bind; [| intros [b|]; [keeps_step|]].
  - destruct (which env "usd2gltf"); [|keeps_step].
    apply keeps_except_called_process_error; repeat keeps_step.
  - apply keeps_bind; [| intros [b|]; keeps_step].
    destruct (which env "blender"); [|keeps_step].
    apply keeps_except_called_process_error; repeat keeps_step.
Qed.

Lemma keeps_convert_each pack_id config usd_files converted_assets :
  keeps_registry (convert_each env base_dir pack_id config usd_files converted_assets).
Proof.
  revert converted_assets.
  induction usd_files as [|f rest IH]; intros acc; simpl; [keeps_step|].
  apply keeps_bind; [apply keeps_convert_usd_to_gltf | intros ?; apply IH].
Qed.

End Frame.

(** ** Downloader *)

Section Downloader.

Variable env : environment.
Variable base_dir : path.

(** C5.  A pack whose archive already stands at [download_dir/{pack_id}.zip]
    is not downloaded again: [download_asset_pack] makes no call at all (so no
    network call), leaves the world as it was (so writes nothing), and returns
    that path. *)
Theorem download_asset_pack_idempotent pack_id config w :
  path_exists (fs w) (download_dir base_dir </> (pack_id +:+ ".zip")) = true ->
  let r := download_asset_pack env base_dir pack_id config w in
  outcome r = Ok (download_dir base_dir </> (pack_id +:+ ".zip"))
  /\ network_calls (events r) = []
  /\ events r = []
  /\ after r = w.
Proof.
  intros Hex. unfold download_asset_pack, bind, get_fs. simpl.
  rewrite Hex. simpl. done.
Qed.

End Downloader.

Lemma download_asset_pack_idempotent_witness :
  let r := download_asset_pack Samples.offline Samples.base "p1" Samples.warehouse
             Samples.downloaded_world in
  outcome r = Ok (download_dir Samples.base </> "p1.zip")
  /\ network_calls (events r) = []
  /\ events r = []
  /\ after r = Samples.downloaded_world.
Proof.
  apply (download_asset_pack_idempotent Samples.offline Samples.base "p1"
           Samples.warehouse Samples.downloaded_world).
  vm_compute; reflexivity.
Defined.

Lemma append_empty_r (s : string) : s +:+ "" = s.
Proof.
  induction s as [|c s IH]; [done|].
  change (String c (s +:+ "") = String c s). by rewrite IH.
Qed.

Lemma append_assoc (s1 s2 s3 : string) : (s1 +:+ s2) +:+ s3 = s1 +:+ (s2 +:+ s3).
Proof.
  induction s1 as [|c s1 IH]; [done|].
  change (String c ((s1 +:+ s2) +:+ s3) = String c (s1 +:+ (s2 +:+ s3))). by rewrite IH.
Qed.

(** Writing the chunks of a body to a file that holds [written]. *)
Lemma write_chunks_run p written chunks w :
  fs w !! p = Some (EFile (Raw written)) ->
  write_chunks p written chunks w
  = Run (Ok tt) (World (<[p := EFile (Raw (written +:+ body chunks))]> (fs w)) (registry w)) [].
Proof.
  revert written w. induction chunks as [|chunk rest IH]; intros written w Hp.
  - cbn. rewrite append_empty_r, insert_id by done. by destruct w.
  - cbn [write_chunks body foldr]. unfold bind. rewrite write_file_run, Hp.
    rewrite IH by (cbn; apply lookup_insert_eq).
    cbn. by rewrite insert_insert_eq, append_assoc.
Qed.

Section DownloadFailure.

Variable env : environment.
Variable base_dir : path.

(** [download_asset_pack] of a pack whose archive is missing, case by case. *)
Lemma download_asset_pack_run pack_id config w :
  path_exists (fs w) (zip_path_of base_dir pack_id) = false ->
  download_asset_pack env base_dir pack_id config w
  = let zip_path := zip_path_of base_dir pack_id in
    let called := [HttpGet (url config)] in
    match http_get env (url config) with
    | NoConnection => Run (Raise ConnectionError) w called
    | Response status len chunks broken =>
        if ((400 <=? status)%Z && (status <? 600)%Z)%bool
        then Run (Raise (HTTPError status)) w called
        else
          match len with
          | MalformedLength => Run (Raise ValueError) w called
          | _ =>
              Run (if broken then Raise ChunkedEncodingError else Ok zip_path)
                  (World (<[zip_path := EFile (Raw (body chunks))]> (fs w)) (registry w))
                  called
          end
    end.
Proof.
  intros Habsent. unfold download_asset_pack. fold (zip_path_of base_dir pack_id).
  unfold bind at 1. unfold get_fs. rewrite Habsent.
  unfold path_exists in Habsent.
  destruct (fs w !! zip_path_of base_dir pack_id) as [|] eqn:Hzip; [done|].
  unfold try_except, bind, emit, raise_for_status, int_content_length, raise, ret.
  cbv zeta.
  destruct (http_get env (url config)) as [|status len chunks broken]; [done|].
  destruct ((400 <=? status)%Z && (status <? 600)%Z)%bool; [done|].
  destruct len; try done;
    rewrite write_file_run, Hzip;
    rewrite (write_chunks_run _ "") by (cbn; apply lookup_insert_eq);
    cbn; rewrite insert_insert_eq; by destruct broken.
Qed.

(** C9, as the code has it.  For a pack whose archive is missing: a response
    with a status that [raise_for_status] rejects (400 to 599) makes the
    download raise before the archive is opened, so the world is unchanged and
    no file stands at the archive path; and a download that raised and yet left
    a file there got a response whose status passed the check and whose body
    broke mid-stream, the file holding the chunks received so far. *)
Theorem download_failure_leaves_no_file pack_id config w :
  path_exists (fs w) (zip_path_of base_dir pack_id) = false ->
  let r := download_asset_pack env base_dir pack_id config w in
  (forall status len chunks broken,
     http_get env (url config) = Response status len chunks broken ->
     400 <= status < 600 ->
     outcome r = Raise (HTTPError status)
     /\ after r = w
     /\ path_exists (fs (after r)) (zip_path_of base_dir pack_id) = false)
  /\ (forall e,
       outcome r = Raise e ->
       path_exists (fs (after r)) (zip_path_of base_dir pack_id) = true ->
       exists status len chunks,
         http_get env (url config) = Response status len chunks true
         /\ ~ (400 <= status < 600)
         /\ e = ChunkedEncodingError
         /\ fs (after r) !! zip_path_of base_dir pack_id = Some (EFile (Raw (body chunks)))).
Proof.
  intros Habsent. cbv zeta. rewrite download_asset_pack_run by done. cbv zeta.
  split.
  - intros status len chunks broken -> [Hlo Hhi].
    apply Z.leb_le in Hlo. apply Z.ltb_lt in Hhi. rewrite Hlo, Hhi. by cbn.
  - intros e.
    destruct (http_get env (url config)) as [|status len chunks broken]; cbn.
    { intros _ Hex. congruence. }
    destruct ((400 <=? status)%Z && (status <? 600)%Z)%bool eqn:Hstatus; cbn.
    { intros _ Hex. congruence. }
    assert (Hpass : ~ (400 <= status < 600)).
    { intros [Hlo Hhi]. apply Z.leb_le in Hlo. apply Z.ltb_lt in Hhi.
      by rewrite Hlo, Hhi in Hstatus. }
    destruct len; cbn; try (intros _ Hex; congruence);
      (destruct broken; [|done]); intros [= <-] _;
      exists status; eexists; exists chunks; (split; [done|]);
      (split; [done|]); (split; [done|]); apply lookup_insert_eq.
Qed.

End DownloadFailure.

Lemma download_failure_leaves_no_file_witness :
  let r := download_asset_pack Samples.not_found Samples.base "p1" Samples.warehouse
             Samples.empty_world in
  outcome r = Raise (HTTPError 404)
  /\ after r = Samples.empty_world
  /\ path_exists (fs (after r)) (zip_path_of Samples.base "p1") = false.
Proof.
  apply (proj1 (download_failure_leaves_no_file Samples.not_found Samples.base "p1"
                  Samples.warehouse Samples.empty_world eq_refl)
           404 (Length 9) ["not found"] false eq_refl).
  lia.
Defined.

(** A status outside 200..299 that [raise_for_status] lets pass: the answer
    304 is written to the archive path and the download returns. *)
Lemma non_2xx_status_leaves_a_file : ~ no_file_on_non_2xx.
Proof.
  intros Hclaim.
  destruct (Hclaim Samples.not_modified Samples.base "p1" Samples.warehouse
              Samples.empty_world 304 NoLength ["<html>"; "not modified"; "</html>"] false
              eq_refl eq_refl ltac:(lia)) as [_ Hfile].
  vm_compute in Hfile. discriminate.
Qed.

(** ** Registry *)

Lemma record_run cat converted_assets w :
  record cat converted_assets w
  = Run (Ok tt)
        (World (fs w) (<[cat := entries (registry w) cat ++ converted_assets]> (registry w)))
        [].
Proof.
  unfold record, bind, get_registry, put_registry, ret, entries.
  destruct w as [f reg]. simpl.
  destruct (reg !! cat) as [old|] eqn:Hcat; simpl; f_equal; f_equal.
  - apply map_eq. intros k. destruct (decide (k = cat)) as [->|Hne].
    + by rewrite lookup_alter_eq, lookup_insert_eq, Hcat.
    + by rewrite lookup_alter_ne, lookup_insert_ne.
  - apply map_eq. intros k. destruct (decide (k = cat)) as [->|Hne].
    + by rewrite lookup_alter_eq, !lookup_insert_eq.
    + by rewrite lookup_alter_ne, !lookup_insert_ne.
Qed.

Lemma entries_insert (reg : registry_t) cat l : entries (<[cat := l]> reg) cat = l.
Proof. unfold entries. by rewrite lookup_insert_eq. Qed.

(** C4.  Recording assets under a category appends them: the category's
    sequence afterwards is the old sequence followed by the new assets (nothing
    removed, reordered or merged), it is longer by exactly their number, every
    other category keeps its sequence, and nothing else changes. *)
Theorem record_append_only cat converted_assets w :
  let r := record cat converted_assets w in
  outcome r = Ok tt
  /\ fs (after r) = fs w
  /\ entries (registry (after r)) cat = entries (registry w) cat ++ converted_assets
  /\ length (entries (registry (after r)) cat)
     = (length (entries (registry w) cat) + length converted_assets)%nat
  /\ forall other, other <> cat ->
       registry (after r) !! other = registry w !! other.
Proof.
  cbv zeta. rewrite record_run. simpl. rewrite entries_insert.
  repeat split.
  - by rewrite length_app.
  - intros other Hne. by rewrite lookup_insert_ne.
Qed.

(** ** Registry updates of a pack *)

Lemma raise_keeps_bind {A B} (m : pipe A) (k : A -> pipe B) :
  keeps_registry m -> (forall a, raise_keeps_registry (k a)) ->
  raise_keeps_registry (bind m k).
Proof.
  intros Hm Hk w e He.
  destruct (bind_raise_inv m k w e He) as [[_ ->]|(a & _ & Hr & ->)].
  - apply Hm.
  - rewrite (Hk a _ e Hr). apply Hm.
Qed.

Lemma raise_keeps_record cat converted_assets :
  raise_keeps_registry (record cat converted_assets).
Proof. intros w e. by rewrite record_run. Qed.

Section Atomicity.

Variable env : environment.
Variable base_dir : path.

(** C8.  A pack that fails adds nothing: when an exception leaves
    [process_asset_pack] (from the download, the extraction, the location, the
    category directory or a conversion), the registry is the one the pack
    started with; the converted assets are recorded in one step after the
    conversion loop, and that step does not raise. *)
Theorem failed_pack_adds_nothing pack_id config w e :
  outcome (process_asset_pack env base_dir pack_id config w) = Raise e ->
  registry (after (process_asset_pack env base_dir pack_id config w)) = registry w.
Proof.
  revert w e. change (raise_keeps_registry (process_asset_pack env base_dir pack_id config)).
  unfold process_asset_pack.
  apply raise_keeps_bind; [apply keeps_emit | intros _].
  apply raise_keeps_bind; [apply keeps_download_asset_pack | intros zip_path].
  apply raise_keeps_bind; [apply keeps_extract_pack | intros extract_dir].
  apply raise_keeps_bind; [apply keeps_find_usd_files | intros usd_files].
  apply raise_keeps_bind; [apply keeps_mkdir_exist_ok | intros _].
  apply raise_keeps_bind; [apply keeps_convert_each | intros converted_assets].
  apply raise_keeps_record.
Qed.

End Atomicity.

Lemma failed_pack_adds_nothing_witness :
  outcome (process_asset_pack Samples.offline Samples.base "p1" Samples.warehouse
             Samples.empty_world) = Raise ConnectionError
  /\ registry (after (process_asset_pack Samples.offline Samples.base "p1"
                        Samples.warehouse Samples.empty_world))
     = registry Samples.empty_world.
Proof.
  split; [vm_compute; reflexivity|].
  apply (failed_pack_adds_nothing Samples.offline Samples.base "p1" Samples.warehouse
           Samples.empty_world ConnectionError).
  vm_compute; reflexivity.
Defined.

(** ** The calls a method makes *)

Section Emits.

Variable P : event -> Prop.

Lemma emits_ret {A} (a : A) : emits P (ret a).
Proof. intros w. constructor. Qed.
Lemma emits_raise {A} e : emits P (@raise A e).
Proof. intros w. constructor. Qed.
Lemma emits_get_fs : emits P get_fs.
Proof. intros w. constructor. Qed.
Lemma emits_put_fs f : emits P (put_fs f).
Proof. intros w. constructor. Qed.
Lemma emits_get_registry : emits P get_registry.
Proof. intros w. constructor. Qed.
Lemma emits_put_registry r : emits P (put_registry r).
Proof. intros w. constructor. Qed.
Lemma emits_emit e : P e -> emits P (emit e).
Proof. intros He w. by repeat constructor. Qed.

Lemma emits_bind {A B} (m : pipe A) (k : A -> pipe B) :
  emits P m -> (forall a, emits P (k a)) -> emits P (bind m k).
Proof.
  intros Hm Hk w. unfold bind. specialize (Hm w).
  destruct (m w) as [[a|e] w1 ev1]; simpl in *; [|done].
  specialize (Hk a w1). destruct (k a w1) as [o w2 ev2].
  apply Forall_app. by split.
Qed.

Lemma emits_try_except {A} (m : pipe A) (h : exn -> pipe A) :
  emits P m -> (forall e, emits P (h e)) -> emits P (try_except m h).
Proof.
  intros Hm Hh w. unfold try_except. specialize (Hm w).
  destruct (m w) as [[a|e] w1 ev1]; simpl in *; [done|].
  specialize (Hh e w1). destruct (h e w1) as [o w2 ev2].
  apply Forall_app. by split.
Qed.

End Emits.

#[export] Hint Resolve emits_ret emits_raise emits_get_fs emits_put_fs
  emits_get_registry emits_put_registry : pipe.

Ltac emits_step :=
  first [ solve [auto with pipe]
        | apply emits_emit; first [exact I | solve [auto]]
        | apply emits_bind; [|intros ?]
        | apply emits_try_except; [|intros ?] ].

Lemma emits_mkdir_exist_ok P p : emits P (mkdir_exist_ok p).
Proof.
  unfold mkdir_exist_ok. apply emits_bind; [emits_step | intros f].
  destruct (_ !! _) as [[]|]; emits_step.
Qed.

Lemma emits_write_file P p c : emits P (write_file p c).
Proof.
  unfold write_file. apply emits_bind; [emits_step | intros f].
  destruct (_ !! _) as [[]|]; emits_step.
Qed.

Lemma emits_write_chunks P p written chunks : emits P (write_chunks p written chunks).
Proof.
  revert written. induction chunks as [|c rest IH]; intros written; simpl.
  - emits_step.
  - apply emits_bind; [apply emits_write_file | intros _; apply IH].
Qed.

Lemma emits_raise_for_status P status : emits P (raise_for_status status).
Proof. unfold raise_for_status. destruct (_ && _)%bool; emits_step. Qed.

Lemma emits_int_content_length P len : emits P (int_content_length len).
Proof. destruct len; simpl; emits_step. Qed.

Lemma emits_record P cat converted_assets : emits P (record cat converted_assets).
Proof. intros w. rewrite record_run. constructor. Qed.

#[export] Hint Resolve emits_mkdir_exist_ok emits_write_file emits_write_chunks
  emits_raise_for_status emits_int_content_length emits_record : pipe.

Section InnerCalls.

Variable env : environment.
Variable base_dir : path.

Lemma emits_download_asset_pack P pack_id config :
  (forall u, P (HttpGet u)) ->
  emits P (download_asset_pack env base_dir pack_id config).
Proof.
  intros HP.
  unfold download_asset_pack. apply emits_bind; [emits_step | intros f].
  destruct (path_exists _ _); [emits_step|].
  apply emits_try_except; [|intros e; emits_step].
  apply emits_bind; [emits_step | intros _].
  destruct (http_get _ _) as [|status len chunks broken]; [emits_step|].
  repeat emits_step. destruct broken; emits_step.
Qed.

Lemma emits_extract_pack P zip_path pack_id :
  emits P (extract_pack env base_dir zip_path pack_id).
Proof.
  unfold extract_pack. apply emits_bind; [emits_step | intros f].
  destruct (path_exists _ _); [emits_step|].
  apply emits_try_except; [|intros e; emits_step].
  destruct (_ !! _) as [[[bytes|]|]|]; try emits_step.
  destruct (unzip _ _); repeat emits_step.
Qed.

Lemma emits_find_usd_files P directory : emits P (find_usd_files directory).
Proof. unfold find_usd_files. repeat emits_step. Qed.

Lemma emits_subprocess_run argv : emits inner_call (subprocess_run env argv).
Proof.
  unfold subprocess_run. apply emits_bind; [emits_step | intros _].
  apply emits_bind; [emits_step | intros f].
  destruct (spawn _ _ _) as [code|]; [|emits_step].
  destruct (code =? 0)%Z; emits_step.
Qed.

Lemma emits_except_called_process_error {A} P (m h : pipe A) :
  emits P m -> emits P h -> emits P (except_called_process_error m h).
Proof.
  intros Hm Hh. apply emits_try_except; [done|]. intros []; auto with pipe.
Qed.

Lemma emits_convert_usd_to_gltf usd_file output_path :
  emits inner_call (convert_usd_to_gltf env base_dir usd_file output_path).
Proof.
  pose proof emits_subprocess_run.
  unfold convert_usd_to_gltf.
  apply emits_bind; [emits_step | intros _].
  apply emits_bind; [| intros [b|]; [emits_step|]].
  - destruct (which env "usd2gltf"); [|emits_step].
    apply emits_except_called_process_error; repeat emits_step.
  - apply emits_bind; [| intros [b|]; emits_step].
    destruct (which env "blender"); [|emits_step].
    apply emits_except_called_process_error; repeat emits_step.
Qed.

Lemma emits_convert_each pack_id config usd_files converted_assets :
  emits inner_call (convert_each env base_dir pack_id config usd_files converted_assets).
Proof.
  revert converted_assets.
  induction usd_files as [|f rest IH]; intros acc; simpl; [emits_step|].
  apply emits_bind; [apply emits_convert_usd_to_gltf | intros ?; apply IH].
Qed.

(** The pack banner comes first; everything after it is an inner call. *)
Lemma process_asset_pack_events pack_id config w :
  exists inner,
    events (process_asset_pack env base_dir pack_id config w) = Processing pack_id :: inner
    /\ Forall inner_call inner.
Proof.
  unfold process_asset_pack.
  set (rest := bind (download_asset_pack _ _ _ _) _).
  assert (Hrest : emits inner_call rest).
  { subst rest.
    apply emits_bind; [by apply emits_download_asset_pack | intros zip_path].
    apply emits_bind; [apply emits_extract_pack | intros extract_dir].
    apply emits_bind; [apply emits_find_usd_files | intros usd_files].
    apply emits_bind; [apply emits_mkdir_exist_ok | intros _].
    apply emits_bind; [apply emits_convert_each | intros converted_assets].
    apply emits_record. }
  exists (events (rest w)). split; [|apply Hrest].
  unfold bind at 1. unfold emit. by destruct (rest w).
Qed.

End InnerCalls.

(** ** PipelineOrchestrator *)

Lemma inner_calls_unobserved evs :
  Forall inner_call evs -> started evs = [] /\ saves evs = [] /\ failed evs = [].
Proof.
  induction 1 as [|e evs He _ IH]; [done|].
  destruct e; try done; simpl in *; apply IH.
Qed.

Lemma started_app evs1 evs2 : started (evs1 ++ evs2) = started evs1 ++ started evs2.
Proof. apply omap_app. Qed.

Lemma saves_app evs1 evs2 : saves (evs1 ++ evs2) = saves evs1 ++ saves evs2.
Proof. apply omap_app. Qed.

Lemma started_processing pack_id evs :
  started (Processing pack_id :: evs) = pack_id :: started evs.
Proof. done. Qed.

Lemma saves_processing pack_id evs : saves (Processing pack_id :: evs) = saves evs.
Proof. done. Qed.

Section Orchestrator.

Variable env : environment.
Variable base_dir : path.

(** One turn of the loop of [run]: whatever way the pack ended, the other
    packs are run, from the world the pack left. *)
Lemma run_packs_cons pack_id config rest w :
  let r1 := process_asset_pack env base_dir pack_id config w in
  let r2 := run_packs env base_dir rest (after r1) in
  run_packs env base_dir ((pack_id, config) :: rest) w
  = Run (outcome r2) (after r2)
        (events r1
         ++ match outcome r1 with Ok _ => [] | Raise e => [PackFailed pack_id e] end
         ++ events r2).
Proof.
  cbv zeta. cbn [run_packs]. unfold bind at 1. unfold try_except, emit.
  destruct (process_asset_pack env base_dir pack_id config w) as [[[]|e] w1 ev1];
    cbn [outcome after events];
    destruct (run_packs env base_dir rest w1) as [o w2 ev2]; cbn [outcome after events].
  - done.
  - by rewrite <- app_assoc.
Qed.

Lemma run_packs_observed packs w :
  let r := run_packs env base_dir packs w in
  outcome r = Ok tt /\ started (events r) = packs.*1 /\ saves (events r) = [].
Proof.
  revert w. induction packs as [|[pack_id config] rest IH]; intros w; [done|].
  cbv zeta. rewrite run_packs_cons. cbn [outcome after events].
  destruct (IH (after (process_asset_pack env base_dir pack_id config w)))
    as (Hok & Hstarted & Hsaves).
  destruct (process_asset_pack_events env base_dir pack_id config w)
    as (inner & -> & Hinner).
  destruct (inner_calls_unobserved _ Hinner) as (Hs & Hv & _).
  split; [done|].
  rewrite !started_app, !saves_app, Hstarted, Hsaves.
  rewrite started_processing, saves_processing, Hs, Hv.
  generalize (outcome (process_asset_pack env base_dir pack_id config w)).
  intros [[]|e]; done.
Qed.


End Orchestrator.

(** The isolation scenario of the design document: the download of the first
    pack fails, the second pack is processed and cataloged, and the registry
    is saved once. *)
Example second_pack_survives_first :
  let r := run Samples.studio Samples.base
             [("down", Samples.unreachable); ("p1", Samples.warehouse)]
             Samples.empty_world in
  outcome r = Ok tt
  /\ started (events r) = ["down"; "p1"]
  /\ failed (events r) = ["down"]
  /\ saves (events r) = [metadata_file Samples.base]
  /\ List.map a_id (entries (registry (after r)) "warehouse") = ["p1_a"]
  /\ List.map a_path (entries (registry (after r)) "warehouse") = ["/assets/warehouse/a.glb"]
  /\ entries (registry (after r)) "industrial" = [].
Proof. vm_compute. repeat split; reflexivity. Qed.

(** ** ConverterChain *)

Section ConverterChain.

Variable env : environment.
Variable base_dir : path.

Lemma subprocess_run_run argv w :
  subprocess_run env argv w
  = match spawn env argv (fs w) with
    | Exited code =>
        if (code =? 0)%Z then Run (Ok tt) w [Subprocess argv]
        else Run (Raise (CalledProcessError code)) w [Subprocess argv]
    | NotStarted => Run (Raise OSError) w [Subprocess argv]
    end.
Proof.
  unfold subprocess_run, bind, emit, get_fs.
  destruct (spawn env argv (fs w)) as [code|]; [|done].
  by destruct (code =? 0)%Z.
Qed.

(** [convert_usd_to_gltf], case by case. *)
Lemma convert_usd_to_gltf_run usd_file output_path w :
  convert_usd_to_gltf env base_dir usd_file output_path w
  = let entered := Converting usd_file output_path in
    let first_run := Subprocess (usd2gltf_argv usd_file output_path) in
    if which env "usd2gltf" then
      match spawn env (usd2gltf_argv usd_file output_path) (fs w) with
      | Exited code =>
          if (code =? 0)%Z then Run (Ok true) w [entered; first_run]
          else blender_fallback env base_dir usd_file output_path w [entered; first_run]
      | NotStarted => Run (Raise OSError) w [entered; first_run]
      end
    else blender_fallback env base_dir usd_file output_path w [entered].
Proof.
  unfold convert_usd_to_gltf, except_called_process_error, blender_fallback.
  unfold bind, try_except, emit, ret, raise. cbv zeta.
  destruct (which env "usd2gltf") eqn:W1.
  - rewrite subprocess_run_run.
    destruct (spawn env (usd2gltf_argv usd_file output_path) (fs w)) as [c1|] eqn:S1; [|done].
    destruct (c1 =? 0)%Z eqn:C1; [done|].
    destruct (which env "blender") eqn:W2; [|done].
    rewrite write_file_run.
    destruct (fs w !! script_path base_dir) as [[]|] eqn:L; try done;
    rewrite subprocess_run_run; cbn [fs];
    destruct (spawn env (blender_argv base_dir) _) as [c2|]; try done;
    by destruct (c2 =? 0)%Z.
  - destruct (which env "blender") eqn:W2; [|done].
    rewrite write_file_run.
    destruct (fs w !! script_path base_dir) as [[]|] eqn:L; try done;
    rewrite subprocess_run_run; cbn [fs];
    destruct (spawn env (blender_argv base_dir) _) as [c2|]; try done;
    by destruct (c2 =? 0)%Z.
Qed.

Lemma blender_is_not_usd2gltf usd_file output_path :
  Subprocess (blender_argv base_dir) <> Subprocess (usd2gltf_argv usd_file output_path).
Proof. discriminate. Qed.

(** The first strategy, skipped or failed, hands over to the fallback. *)
Lemma first_strategy_gives_up usd_file output_path w :
  which env "usd2gltf" = false
  \/ (exists code, code <> 0
        /\ spawn env (usd2gltf_argv usd_file output_path) (fs w) = Exited code) ->
  exists before,
    convert_usd_to_gltf env base_dir usd_file output_path w
    = blender_fallback env base_dir usd_file output_path w before
    /\ Subprocess (blender_argv base_dir) ∉ before.
Proof.
  intros Hgave_up. rewrite convert_usd_to_gltf_run. cbv zeta.
  destruct (which env "usd2gltf") eqn:W1.
  - destruct Hgave_up as [|(code & Hcode & ->)]; [done|].
    apply Z.eqb_neq in Hcode. rewrite Hcode.
    eexists. split; [done|].
    intros Hin. repeat (apply elem_of_cons in Hin as [?|Hin]; [done|]).
    by apply elem_of_nil in Hin.
  - eexists. split; [done|].
    intros Hin. repeat (apply elem_of_cons in Hin as [?|Hin]; [done|]).
    by apply elem_of_nil in Hin.
Qed.

(** The fallback, entered with an installed Blender: a directory at the
    script path stops it before Blender is run; otherwise Blender is run, as
    the last call, and its exit status decides. *)
Lemma blender_fallback_attempt usd_file output_path w before :
  which env "blender" = true ->
  let r := blender_fallback env base_dir usd_file output_path w before in
  let scripted :=
    <[script_path base_dir := EFile (Raw (blender_script usd_file output_path))]> (fs w) in
  match fs w !! script_path base_dir with
  | Some (EDir _) => outcome r = Raise IsADirectoryError /\ events r = before
  | _ =>
      events r = before ++ [Subprocess (blender_argv base_dir)]
      /\ outcome r = match spawn env (blender_argv base_dir) scripted with
                     | Exited code => Ok (code =? 0)%Z
                     | NotStarted => Raise OSError
                     end
  end.
Proof.
  intros W2. cbv zeta. unfold blender_fallback. rewrite W2.
  destruct (fs w !! script_path base_dir) as [[c|children]|] eqn:L;
    [|done|]; by destruct (spawn _ _ _).
Qed.

(** Whenever the fallback ran Blender, it had just written the script. *)
Lemma blender_fallback_script usd_file output_path w before :
  Subprocess (blender_argv base_dir) ∉ before ->
  let r := blender_fallback env base_dir usd_file output_path w before in
  Subprocess (blender_argv base_dir) ∈ events r ->
  after r
  = World (<[script_path base_dir := EFile (Raw (blender_script usd_file output_path))]> (fs w))
          (registry w).
Proof.
  intros Hbefore. cbv zeta. unfold blender_fallback.
  destruct (which env "blender"); [|done].
  destruct (fs w !! script_path base_dir) as [[c|children]|] eqn:L;
    try done; by destruct (spawn _ _ _).
Qed.

(** C2, as the code has it.  The converters are tried in order.  An
    installed [usd2gltf] is run first, and one that is not installed is not
    run; when it exits with status zero the conversion returns true at once
    and Blender is not run; when it is not installed or exits with another
    status, an installed Blender is attempted before the conversion ends: the
    script is written and Blender is run as the last call, its exit status
    deciding the result (a directory at the script path ends the attempt with
    [IsADirectoryError]); and when each converter is either not installed, or
    was run and exited with a non-zero status, the conversion returns false
    and raises nothing. *)
Theorem converter_fallback_order usd_file output_path w :
  let r := convert_usd_to_gltf env base_dir usd_file output_path w in
  let entered := Converting usd_file output_path in
  let first_run := Subprocess (usd2gltf_argv usd_file output_path) in
  let second_run := Subprocess (blender_argv base_dir) in
  let scripted :=
    <[script_path base_dir := EFile (Raw (blender_script usd_file output_path))]> (fs w) in
  let first_gave_up :=
    which env "usd2gltf" = false
    \/ (exists code, code <> 0
          /\ spawn env (usd2gltf_argv usd_file output_path) (fs w) = Exited code) in
  let second_gave_up :=
    which env "blender" = false
    \/ (second_run ∈ events r
        /\ exists code, code <> 0 /\ spawn env (blender_argv base_dir) scripted = Exited code) in
  (which env "usd2gltf" = true -> exists rest, events r = entered :: first_run :: rest)
  /\ (which env "usd2gltf" = false -> first_run ∉ events r)
  /\ (which env "usd2gltf" = true ->
      spawn env (usd2gltf_argv usd_file output_path) (fs w) = Exited 0 ->
      outcome r = Ok true /\ events r = [entered; first_run] /\ (second_run ∉ events r))
  /\ (first_gave_up -> which env "blender" = true ->
      match fs w !! script_path base_dir with
      | Some (EDir _) => outcome r = Raise IsADirectoryError
      | _ =>
          (exists before, events r = before ++ [second_run])
          /\ outcome r = match spawn env (blender_argv base_dir) scripted with
                         | Exited code => Ok (code =? 0)%Z
                         | NotStarted => Raise OSError
                         end
      end)
  /\ (first_gave_up -> second_gave_up -> outcome r = Ok false).
Proof.
  cbv zeta. repeat apply conj.
  - intros W1. rewrite convert_usd_to_gltf_run. cbv zeta. rewrite W1.
    unfold blender_fallback.
    destruct (spawn env (usd2gltf_argv _ _) _) as [c1|]; [|by eexists].
    destruct (c1 =? 0)%Z; [by eexists|].
    destruct (which env "blender"); [|by eexists].
    destruct (fs w !! _) as [[]|]; try (by eexists);
      destruct (spawn env (blender_argv _) _); by eexists.
  - intros W1. rewrite convert_usd_to_gltf_run. cbv zeta. rewrite W1.
    unfold blender_fallback.
    destruct (which env "blender"); [|by intros [?|[]%elem_of_nil]%elem_of_cons].
    destruct (fs w !! _) as [[]|];
      try (by intros [?|[]%elem_of_nil]%elem_of_cons);
      destruct (spawn env (blender_argv _) _); cbn [events app];
      intros Hin; repeat (apply elem_of_cons in Hin as [?|Hin]; [done|]);
      by apply elem_of_nil in Hin.
  - intros W1 S1. rewrite convert_usd_to_gltf_run. cbv zeta. rewrite W1, S1.
    cbn. repeat split.
    intros Hin. repeat (apply elem_of_cons in Hin as [?|Hin]; [done|]).
    by apply elem_of_nil in Hin.
  - intros Hfirst W2.
    destruct (first_strategy_gives_up usd_file output_path w Hfirst) as (before & -> & _).
    pose proof (blender_fallback_attempt usd_file output_path w before W2) as Hattempt.
    cbv zeta in Hattempt.
    destruct (fs w !! script_path base_dir) as [[c|children]|];
      [|by destruct Hattempt|];
      destruct Hattempt as [Hev Hout]; (split; [by exists before | done]).
  - intros Hfirst Hsecond.
    destruct (first_strategy_gives_up usd_file output_path w Hfirst)
      as (before & Hfallback & Hbefore).
    rewrite Hfallback in Hsecond |- *.
    destruct Hsecond as [W2|(Hran & code & Hcode & Hspawn)].
    + unfold blender_fallback. by rewrite W2.
    + revert Hran. unfold blender_fallback. destruct (which env "blender"); [|done].
      apply Z.eqb_neq in Hcode.
      destruct (fs w !! script_path base_dir) as [[c|children]|] eqn:L.
      * rewrite Hspawn. cbn. by rewrite Hcode.
      * cbn [events]. intros Hran. by apply Hbefore in Hran.
      * rewrite Hspawn. cbn. by rewrite Hcode.
Qed.

(** C10.  Whenever a conversion runs Blender, the script it runs was written
    by that conversion to the one path [download_dir/convert.py], whatever
    stood there before (a script of an earlier conversion is replaced); the
    text is [blender_script] of the input and output paths and of nothing
    else; no other path and no registry entry changes. *)
Theorem blender_script_at_fixed_path usd_file output_path w :
  let r := convert_usd_to_gltf env base_dir usd_file output_path w in
  Subprocess (blender_argv base_dir) ∈ events r ->
  fs (after r) !! script_path base_dir
    = Some (EFile (Raw (blender_script usd_file output_path)))
  /\ fs (after r)
     = <[script_path base_dir := EFile (Raw (blender_script usd_file output_path))]> (fs w)
  /\ registry (after r) = registry w
  /\ List.last (blender_argv base_dir) "" = str_of_path (download_dir base_dir </> "convert.py").
Proof.
  cbv zeta. intros Hin.
  assert (Hafter : after (convert_usd_to_gltf env base_dir usd_file output_path w)
            = World (<[script_path base_dir :=
                        EFile (Raw (blender_script usd_file output_path))]> (fs w))
                    (registry w)).
  { revert Hin. rewrite convert_usd_to_gltf_run. cbv zeta.
    pose proof (blender_is_not_usd2gltf usd_file output_path) as Hne.
    assert (Hb1 : Subprocess (blender_argv base_dir)
                  ∉ [Converting usd_file output_path;
                     Subprocess (usd2gltf_argv usd_file output_path)]).
    { intros Hin. repeat (apply elem_of_cons in Hin as [?|Hin]; [done|]).
      by apply elem_of_nil in Hin. }
    assert (Hb0 : Subprocess (blender_argv base_dir) ∉ [Converting usd_file output_path]).
    { intros Hin. repeat (apply elem_of_cons in Hin as [?|Hin]; [done|]).
      by apply elem_of_nil in Hin. }
    destruct (which env "usd2gltf").
    - destruct (spawn env (usd2gltf_argv _ _) _) as [c1|]; [|done].
      destruct (c1 =? 0)%Z; [done|]. by apply blender_fallback_script.
    - by apply blender_fallback_script. }
  rewrite Hafter. cbn [fs registry]. by rewrite lookup_insert_eq.
Qed.

End ConverterChain.

Lemma blender_script_at_fixed_path_witness :
  let usd_file := download_dir Samples.base </> "p1" </> "a.usd" in
  let output_path := output_dir Samples.base </> "warehouse" </> "a.glb" in
  let r := convert_usd_to_gltf Samples.studio Samples.base usd_file output_path
             Samples.scripted_world in
  fs (after r) !! script_path Samples.base
    = Some (EFile (Raw (blender_script usd_file output_path)))
  /\ fs (after r)
     = <[script_path Samples.base := EFile (Raw (blender_script usd_file output_path))]>
         (fs Samples.scripted_world)
  /\ registry (after r) = registry Samples.scripted_world
  /\ List.last (blender_argv Samples.base) ""
     = str_of_path (download_dir Samples.base </> "convert.py").
Proof.
  apply (blender_script_at_fixed_path Samples.studio Samples.base
           (download_dir Samples.base </> "p1" </> "a.usd")
           (output_dir Samples.base </> "warehouse" </> "a.glb")
           Samples.scripted_world).
  vm_compute. apply list_elem_of_further, list_elem_of_here.
Defined.

(** Both converters are installed and neither can be started: the first one
    fails, yet the conversion raises [OSError] instead of returning false, and
    Blender is never tried. *)
Lemma unstartable_converter_raises : ~ failed_converters_return_false.
Proof.
  intros Hclaim.
  specialize (Hclaim Samples.unstartable Samples.base
                (download_dir Samples.base </> "p1" </> "a.usd")
                (output_dir Samples.base </> "warehouse" </> "a.glb")
                Samples.empty_world).
  cbv zeta in Hclaim.
  assert (Hout : outcome (convert_usd_to_gltf Samples.unstartable Samples.base
                            (download_dir Samples.base </> "p1" </> "a.usd")
                            (output_dir Samples.base </> "warehouse" </> "a.glb")
                            Samples.empty_world)
                 = Raise OSError) by (vm_compute; reflexivity).
  rewrite Hout in Hclaim.
  discriminate Hclaim; right; (split; [reflexivity | discriminate]).
Qed.

(** The same conversion, call by call: [usd2gltf] is the only subprocess. *)
Example unstartable_converter_calls :
  let usd_file := download_dir Samples.base </> "p1" </> "a.usd" in
  let output_path := output_dir Samples.base </> "warehouse" </> "a.glb" in
  let r := convert_usd_to_gltf Samples.unstartable Samples.base usd_file output_path
             Samples.empty_world in
  outcome r = Raise OSError
  /\ subprocesses (events r) = [usd2gltf_argv usd_file output_path].
Proof. vm_compute. by split. Qed.

(** ** AssetLocator *)

(** Induction over a tree, with the hypothesis for every entry of a directory. *)
Lemma node_tree_ind (P : node -> Prop) :
  (forall n, P (File n)) ->
  (forall n sub, Forall P sub -> P (Dir n sub)) ->
  forall x, P x.
Proof.
  intros Hfile Hdir.
  fix IH 1. intros [n|n sub]; [apply Hfile|].
  apply Hdir. induction sub as [|y sub IHsub]; constructor; [apply IH | apply IHsub].
Qed.

Lemma name_join p n : name (p </> n) = n.
Proof. unfold name, join. apply last_last. Qed.

Lemma filter_flat_map {A B} (p : B -> bool) (f : A -> list B) l :
  List.filter p (List.flat_map f l) = List.flat_map (fun x => List.filter p (f x)) l.
Proof.
  induction l as [|x l IH]; [done|]. cbn. by rewrite List.filter_app, IH.
Qed.

Lemma matching_filter ext dir children :
  matching ext dir children
  = List.filter (has_extension ext) (List.map (fun y => dir </> node_name y) children).
Proof.
  unfold matching. induction children as [|y children IH]; [done|].
  cbn [List.filter List.map]. unfold has_extension at 1. rewrite name_join.
  destruct (ends_with ext (node_name y)); cbn [List.map]; by rewrite IH.
Qed.

Lemma rglob_below_walk ext parent x :
  rglob_below ext parent x = List.filter (has_extension ext) (walk_below parent x).
Proof.
  revert parent. induction x as [n|n sub IH] using node_tree_ind; intros parent; [done|].
  cbn [rglob_below walk_below]. rewrite List.filter_app, filter_flat_map, matching_filter.
  f_equal. induction IH as [|y sub Hy _ IHsub]; [done|]. cbn. by rewrite Hy, IHsub.
Qed.

Lemma rglob_walk ext dir children :
  rglob ext dir children = List.filter (has_extension ext) (walk dir children).
Proof.
  unfold rglob, walk. rewrite List.filter_app, filter_flat_map, matching_filter.
  f_equal. induction children as [|y children IH]; [done|].
  cbn. by rewrite rglob_below_walk, IH.
Qed.

Lemma path_rglob_scan f directory ext :
  path_rglob f directory ext = List.filter (has_extension ext) (scan f directory).
Proof.
  unfold path_rglob, scan. destruct (f !! directory) as [[]|]; try done. apply rglob_walk.
Qed.

Lemma prefix_head a ext r :
  String.prefix (String a ext) r = true -> exists rest, r = String a rest.
Proof.
  destruct r as [|b r]; [done|]. cbn [String.prefix].
  destruct (ascii_dec a b) as [->|]; [by eexists | done].
Qed.

Lemma extensions_exclusive ext1 ext2 p :
  ext1 ∈ usd_extensions -> ext2 ∈ usd_extensions ->
  has_extension ext1 p = true -> has_extension ext2 p = true -> ext1 = ext2.
Proof.
  unfold has_extension, ends_with, usd_extensions.
  generalize (String.rev (name p)). intros r H1 H2 E1 E2.
  repeat (apply elem_of_cons in H1 as [->|H1]); try (by apply elem_of_nil in H1);
  repeat (apply elem_of_cons in H2 as [->|H2]); try (by apply elem_of_nil in H2);
  try done;
  apply prefix_head in E1 as [r1 Hr1]; apply prefix_head in E2 as [r2 Hr2];
  congruence.
Qed.

(** The groups by extension of a list hold what the list holds of scene
    files, each once. *)
Lemma by_extension_permutation l :
  List.flat_map (fun ext => List.filter (has_extension ext) l) usd_extensions
  ≡ₚ List.filter scene_file l.
Proof.
  cbn [List.flat_map usd_extensions]. rewrite app_nil_r.
  induction l as [|p l IH]; [done|].
  assert (X : forall ext1 ext2, ext1 ∈ usd_extensions -> ext2 ∈ usd_extensions ->
            ext1 <> ext2 -> has_extension ext1 p = true -> has_extension ext2 p = true -> False).
  { intros ext1 ext2 H1 H2 Hne E1 E2. by destruct Hne, (extensions_exclusive ext1 ext2 p). }
  cbn [List.filter]. unfold scene_file at 1. cbn [existsb usd_extensions].
  destruct (has_extension ".usd" p) eqn:E1, (has_extension ".usda" p) eqn:E2,
           (has_extension ".usdc" p) eqn:E3, (has_extension ".usdz" p) eqn:E4;
    cbn [orb];
    try (exfalso;
         first [ by apply (X ".usd" ".usda"); [apply list_elem_of_In; cbn; tauto|apply list_elem_of_In; cbn; tauto|..]
               | by apply (X ".usd" ".usdc"); [apply list_elem_of_In; cbn; tauto|apply list_elem_of_In; cbn; tauto|..]
               | by apply (X ".usd" ".usdz"); [apply list_elem_of_In; cbn; tauto|apply list_elem_of_In; cbn; tauto|..]
               | by apply (X ".usda" ".usdc"); [apply list_elem_of_In; cbn; tauto|apply list_elem_of_In; cbn; tauto|..]
               | by apply (X ".usda" ".usdz"); [apply list_elem_of_In; cbn; tauto|apply list_elem_of_In; cbn; tauto|..]
               | by apply (X ".usdc" ".usdz"); [apply list_elem_of_In; cbn; tauto|apply list_elem_of_In; cbn; tauto|..] ]).
  - cbn [app]. by rewrite IH.
  - cbn [app]. rewrite <- Permutation_middle. by rewrite IH.
  - cbn [app]. rewrite (app_assoc _ _ (p :: _)), <- Permutation_middle, <- app_assoc.
    by rewrite IH.
  - rewrite !(app_assoc _ _ (p :: _)), <- Permutation_middle, <- !app_assoc.
    by rewrite IH.
  - done.
Qed.

Lemma find_usd_files_run directory w :
  find_usd_files directory w
  = Run (Ok (List.flat_map
               (fun ext => List.filter (has_extension ext) (scan (fs w) directory))
               usd_extensions))
        w [].
Proof.
  unfold find_usd_files, bind, get_fs, ret. cbn [fold_left usd_extensions List.flat_map].
  rewrite !path_rglob_scan. cbn [app]. by rewrite app_nil_r, <- !app_assoc.
Qed.

(** The scan of one kind of entries is part of the scan, in its order. *)
Lemma map_filter_sublist {A B} (keep : A -> bool) (g : A -> B) l :
  List.map g (List.filter keep l) `sublist_of` List.map g l.
Proof.
  induction l as [|x l IH]; [done|]. cbn.
  destruct (keep x); cbn; [by apply sublist_skip | by apply sublist_cons].
Qed.

Lemma flat_map_sublist {A B} (g h : A -> list B) l :
  Forall (fun x => g x `sublist_of` h x) l ->
  List.flat_map g l `sublist_of` List.flat_map h l.
Proof.
  induction 1 as [|x l Hx _ IH]; [done|]. cbn. by apply sublist_app.
Qed.

Lemma filter_sublist {A} (p : A -> bool) l1 l2 :
  l1 `sublist_of` l2 -> List.filter p l1 `sublist_of` List.filter p l2.
Proof.
  induction 1 as [|x l1 l2 _ IH|x l1 l2 _ IH]; [done| |]; cbn; destruct (p x);
    [by apply sublist_skip | done | by apply sublist_cons | done].
Qed.

Lemma walk_below_of_sublist keep parent x :
  walk_below_of keep parent x `sublist_of` walk_below parent x.
Proof.
  revert parent. induction x as [n|n sub IH] using node_tree_ind; intros parent; [done|].
  cbn [walk_below_of walk_below]. apply sublist_app; [apply map_filter_sublist|].
  apply flat_map_sublist. eapply Forall_impl; [exact IH|]. intros y Hy. apply Hy.
Qed.

Lemma scan_of_sublist keep f directory :
  scan_of keep f directory `sublist_of` scan f directory.
Proof.
  unfold scan_of, scan. destruct (f !! directory) as [[c|children]|]; [done| |done].
  unfold walk_of, walk. apply sublist_app; [apply map_filter_sublist|].
  apply flat_map_sublist, Forall_forall. intros y _. apply walk_below_of_sublist.
Qed.

(** Where no directory is selected, the selection of all the entries is the
    selection of the regular files. *)
Lemma filter_app_nil {A} (p : A -> bool) l1 l2 :
  List.filter p (l1 ++ l2) = [] -> List.filter p l1 = [] /\ List.filter p l2 = [].
Proof. rewrite List.filter_app. apply app_eq_nil. Qed.

Lemma filter_map_files {B} (p : B -> bool) (g : node -> B) l :
  List.filter p (List.map g (List.filter is_dir l)) = [] ->
  List.filter p (List.map g l) = List.filter p (List.map g (List.filter is_file l)).
Proof.
  induction l as [|y l IH]; [done|]. unfold is_dir in *.
  destruct y as [n|n sub]; cbn.
  - intros Hnone. by rewrite IH.
  - destruct (p (g (Dir n sub))); [done|]. apply IH.
Qed.

Lemma flat_map_files {B} (p : B -> bool) (all dirs files : node -> list B) l :
  Forall (fun y => List.filter p (dirs y) = [] ->
                   List.filter p (all y) = List.filter p (files y)) l ->
  List.filter p (List.flat_map dirs l) = [] ->
  List.filter p (List.flat_map all l) = List.filter p (List.flat_map files l).
Proof.
  induction 1 as [|y l Hy _ IH]; [done|]. cbn.
  intros [Hhead Hrest]%filter_app_nil. by rewrite !List.filter_app, Hy, IH.
Qed.

Lemma walk_below_files (p : path -> bool) parent x :
  List.filter p (walk_below_of is_dir parent x) = [] ->
  List.filter p (walk_below parent x) = List.filter p (walk_below_of is_file parent x).
Proof.
  revert parent. induction x as [n|n sub IH] using node_tree_ind; intros parent; [done|].
  cbn [walk_below_of walk_below]. intros [Hhere Hbelow]%filter_app_nil.
  rewrite !List.filter_app. f_equal; [by apply filter_map_files|].
  apply (flat_map_files p _ (walk_below_of is_dir (parent </> n))); [|done].
  eapply Forall_impl; [exact IH|]. intros y Hy. apply Hy.
Qed.

Lemma scan_files_only (p : path -> bool) f directory :
  List.filter p (scan_dirs f directory) = [] ->
  List.filter p (scan f directory) = List.filter p (scan_files f directory).
Proof.
  unfold scan_dirs, scan_files, scan_of, scan.
  destruct (f !! directory) as [[c|children]|]; [done| |done].
  unfold walk_of, walk. intros [Hhere Hbelow]%filter_app_nil.
  rewrite !List.filter_app. f_equal; [by apply filter_map_files|].
  apply (flat_map_files p _ (walk_below_of is_dir directory)); [|done].
  apply Forall_forall. intros y _. apply walk_below_files.
Qed.

Lemma filter_none_weaker {A} (p q : A -> bool) l :
  (forall x, p x = true -> q x = true) ->
  List.filter q l = [] -> List.filter p l = [].
Proof.
  intros Hpq. induction l as [|x l IH]; [done|]. cbn.
  destruct (q x) eqn:Hq; [done|]. intros Hnone.
  destruct (p x) eqn:Hp; [|by apply IH]. apply Hpq in Hp. congruence.
Qed.

Lemma has_extension_scene_file ext p :
  ext ∈ usd_extensions -> has_extension ext p = true -> scene_file p = true.
Proof.
  intros Hext Hp. unfold scene_file. apply existsb_exists. exists ext.
  split; [by apply list_elem_of_In | done].
Qed.

(** C7, as the code has it.  [find_usd_files] never raises and changes
    nothing.  The sequence it returns lists the files whose name ends in
    [.usd], [.usda], [.usdc] or [.usdz] grouped by extension, in that order,
    and inside each group in the order of the recursive scan; every path it
    returns is in the tree and has such a name; and in a tree where no
    directory has such a name it returns exactly those files, so the empty
    sequence when there is none. *)
Theorem find_usd_files_by_extension directory w :
  let r := find_usd_files directory w in
  let files := scan_files (fs w) directory in
  let grouped :=
    List.flat_map (fun ext => List.filter (has_extension ext) files) usd_extensions in
  exists usd_files,
    outcome r = Ok usd_files
    /\ after r = w
    /\ events r = []
    /\ grouped `sublist_of` usd_files
    /\ (forall p, p ∈ usd_files -> scene_file p = true /\ p ∈ scan (fs w) directory)
    /\ (List.filter scene_file (scan_dirs (fs w) directory) = [] ->
        usd_files = grouped
        /\ (List.filter scene_file files = [] -> usd_files = [])).
Proof.
  cbv zeta. rewrite find_usd_files_run. cbn [outcome after events].
  eexists. split; [reflexivity|]. split; [done|]. split; [done|].
  assert (Hexact : List.filter scene_file (scan_dirs (fs w) directory) = [] ->
            List.flat_map
              (fun ext => List.filter (has_extension ext) (scan (fs w) directory))
              usd_extensions
            = List.flat_map
                (fun ext => List.filter (has_extension ext) (scan_files (fs w) directory))
                usd_extensions).
  { intros Hnone. cbn [List.flat_map usd_extensions].
    rewrite !(scan_files_only (has_extension _)); [done|..];
      (eapply filter_none_weaker; [|exact Hnone]); intros p;
      apply has_extension_scene_file; apply list_elem_of_In; cbn; tauto. }
  split; [|split].
  - cbn [List.flat_map usd_extensions].
    repeat (apply sublist_app; [apply filter_sublist, scan_of_sublist|]). done.
  - intros p Hp. rewrite by_extension_permutation in Hp.
    apply list_elem_of_In, List.filter_In in Hp as [Hin Hscene].
    split; [done | by apply list_elem_of_In].
  - intros Hnone. split; [by apply Hexact|].
    intros Hfiles. rewrite (Hexact Hnone).
    apply Permutation_nil_r. rewrite <- Hfiles. apply by_extension_permutation.
Qed.

(** The tree of the sample pack holds no directory, and its two scene files
    come back grouped. *)
Example mixed_world_located :
  List.filter scene_file (scan_dirs (fs Samples.mixed_world) (download_dir Samples.base </> "p1"))
  = []
  /\ outcome (find_usd_files (download_dir Samples.base </> "p1") Samples.mixed_world)
     = Ok [download_dir Samples.base </> "p1" </> "b.usd";
           download_dir Samples.base </> "p1" </> "a.usda"].
Proof. vm_compute. by split. Qed.

(** [rglob] selects by name: a directory named like a scene file is listed
    with the files. *)
Example bundle_world_located :
  scan_dirs (fs Samples.bundle_world) (download_dir Samples.base </> "p1")
  = [download_dir Samples.base </> "p1" </> "old.usd"]
  /\ outcome (find_usd_files (download_dir Samples.base </> "p1") Samples.bundle_world)
     = Ok [download_dir Samples.base </> "p1" </> "old.usd";
           download_dir Samples.base </> "p1" </> "b.usd"].
Proof. vm_compute. by split. Qed.

(** A directory that lists [a.usda] before [b.usd]: the locator returns
    [b.usd] first. *)
Lemma locator_groups_by_extension : ~ locator_in_scan_order.
Proof.
  intros Hclaim.
  specialize (Hclaim (download_dir Samples.base </> "p1") Samples.mixed_world).
  vm_compute in Hclaim. discriminate.
Qed.

(** ** The conversion loop of a pack *)

Lemma conversions_app evs1 evs2 :
  conversions (evs1 ++ evs2) = conversions evs1 ++ conversions evs2.
Proof. apply omap_app. Qed.

Lemma fetch_calls_convert_nothing evs : Forall fetch_call evs -> conversions evs = [].
Proof.
  induction 1 as [|e evs He _ IH]; [done|]. by destruct e.
Qed.

Section Pack.

Variable env : environment.
Variable base_dir : path.
Variable pack_id : string.
Variable config : pack_config.

Lemma emits_locate : emits fetch_call (locate env base_dir pack_id config).
Proof.
  unfold locate.
  apply emits_bind; [by apply emits_emit | intros _].
  apply emits_bind; [by apply emits_download_asset_pack | intros zip_path].
  apply emits_bind; [apply emits_extract_pack | intros extract_dir].
  apply emits_find_usd_files.
Qed.

Lemma keeps_locate : keeps_registry (locate env base_dir pack_id config).
Proof.
  unfold locate.
  apply keeps_bind; [apply keeps_emit | intros _].
  apply keeps_bind; [apply keeps_download_asset_pack | intros zip_path].
  apply keeps_bind; [apply keeps_extract_pack | intros extract_dir].
  apply keeps_find_usd_files.
Qed.

(** [process_asset_pack], step by step: the locator, the category directory,
    the conversion loop over the first ten files, the registry. *)
Lemma process_asset_pack_steps w :
  process_asset_pack env base_dir pack_id config w
  = match locate env base_dir pack_id config w with
    | Run (Raise e) w3 evs3 => Run (Raise e) w3 evs3
    | Run (Ok usd_files) w3 evs3 =>
        match mkdir_exist_ok (output_dir base_dir </> category config) w3 with
        | Run (Raise e) w4 evs4 => Run (Raise e) w4 (evs3 ++ evs4)
        | Run (Ok _) w4 evs4 =>
            match convert_each env base_dir pack_id config (take 10 usd_files) [] w4 with
            | Run (Raise e) w5 evs5 => Run (Raise e) w5 (evs3 ++ evs4 ++ evs5)
            | Run (Ok converted_assets) w5 evs5 =>
                Run (Ok tt)
                    (World (fs w5)
                       (<[category config :=
                            entries (registry w5) (category config) ++ converted_assets]>
                          (registry w5)))
                    (evs3 ++ evs4 ++ evs5)
            end
        end
    end.
Proof.
  unfold process_asset_pack, locate, bind, emit.
  destruct (download_asset_pack env base_dir pack_id config w) as [[zip_path|e] w1 evs1];
    [|done].
  destruct (extract_pack env base_dir zip_path pack_id w1) as [[extract_dir|e] w2 evs2];
    [|done].
  destruct (find_usd_files extract_dir w2) as [[usd_files|e] w3 evs3]; [|done].
  destruct (mkdir_exist_ok _ w3) as [[[]|e] w4 evs4];
    [|cbn; by rewrite <- !app_assoc].
  destruct (convert_each _ _ _ _ _ _ w4) as [[converted_assets|e] w5 evs5];
    [|cbn; by rewrite <- !app_assoc].
  rewrite record_run. cbn. by rewrite <- !app_assoc, app_nil_r.
Qed.

(** [prepare], step by step. *)
Lemma prepare_steps w :
  prepare env base_dir pack_id config w
  = match locate env base_dir pack_id config w with
    | Run (Raise e) w3 evs3 => Run (Raise e) w3 evs3
    | Run (Ok usd_files) w3 evs3 =>
        match mkdir_exist_ok (output_dir base_dir </> category config) w3 with
        | Run o w4 evs4 => Run o w4 (evs3 ++ evs4)
        end
    end.
Proof. done. Qed.

(** A conversion is one call of the converter, on its file. *)
Lemma convert_usd_to_gltf_conversions usd_file output_path s :
  conversions (events (convert_usd_to_gltf env base_dir usd_file output_path s))
  = [usd_file].
Proof.
  rewrite convert_usd_to_gltf_run. cbv zeta. unfold blender_fallback.
  destruct (which env "usd2gltf"), (which env "blender");
    repeat match goal with
           | |- context [spawn env ?a ?g] => destruct (spawn env a g) as [?c|]
           | |- context [(?c =? 0)%Z] => destruct (c =? 0)%Z
           | |- context [fs s !! ?p] => destruct (fs s !! p) as [[]|]
           end; done.
Qed.

(** The loop hands the files to the converter in order, stops at the first
    exception, and returns the metadata of some of the files it was given. *)
Lemma convert_each_visits usd_files converted_assets s :
  let r := convert_each env base_dir pack_id config usd_files converted_assets s in
  conversions (events r) `prefix_of` usd_files
  /\ forall assets, outcome r = Ok assets ->
       conversions (events r) = usd_files
       /\ exists picked, picked `sublist_of` usd_files
            /\ assets = converted_assets ++ metadata_of pack_id config picked.
Proof.
  revert converted_assets s.
  induction usd_files as [|usd_file rest IH]; intros acc s.
  - cbn. split; [done|]. intros assets [= <-]. split; [done|].
    exists []. by rewrite app_nil_r.
  - cbn [convert_each]. unfold bind.
    pose proof (convert_usd_to_gltf_conversions usd_file
                  (gltf_output base_dir config usd_file) s) as Hone.
    destruct (convert_usd_to_gltf _ _ _ _ s) as [[converted|e] s1 evs1]; cbn [events outcome after] in Hone |- *.
    + set (acc' := if converted then _ else _).
      destruct (IH acc' s1) as [Hprefix Hok].
      destruct (convert_each _ _ _ _ rest acc' s1) as [o s2 evs2];
        cbn [events outcome after] in *.
      rewrite conversions_app, Hone. split.
      * by apply prefix_cons.
      * intros assets ->. destruct (Hok assets eq_refl) as (-> & picked & Hsub & ->).
        split; [done|]. subst acc'. destruct converted.
        -- exists (usd_file :: picked). split; [by apply sublist_skip|].
           by rewrite <- app_assoc.
        -- exists picked. split; [by apply sublist_cons|done].
    + rewrite Hone. split; [|done]. apply prefix_cons, prefix_nil.
Qed.

(** A conversion writes the script and nothing else. *)
Lemma convert_usd_to_gltf_elsewhere usd_file output_path s p :
  p <> script_path base_dir ->
  fs (after (convert_usd_to_gltf env base_dir usd_file output_path s)) !! p = fs s !! p.
Proof.
  intros Hp. rewrite convert_usd_to_gltf_run. cbv zeta. unfold blender_fallback.
  destruct (which env "usd2gltf"), (which env "blender");
    repeat match goal with
           | |- context [spawn env ?a ?g] => destruct (spawn env a g) as [?c|]
           | |- context [(?c =? 0)%Z] => destruct (c =? 0)%Z
           | |- context [fs s !! script_path base_dir] =>
               destruct (fs s !! script_path base_dir) as [[]|]
           end; cbn [after fs]; by rewrite ?lookup_insert_ne.
Qed.

Lemma convert_each_elsewhere usd_files converted_assets s p :
  p <> script_path base_dir ->
  fs (after (convert_each env base_dir pack_id config usd_files converted_assets s)) !! p
  = fs s !! p.
Proof.
  intros Hp. revert converted_assets s.
  induction usd_files as [|f rest IH]; intros acc s; [done|].
  cbn [convert_each]. unfold bind.
  pose proof (convert_usd_to_gltf_elsewhere f (gltf_output base_dir config f) s p Hp) as H1.
  destruct (convert_usd_to_gltf _ _ _ _ s) as [[b|e] s1 evs1]; cbn [after] in *; [|done].
  pose proof (IH (if b then acc ++ [asset_metadata pack_id config (stem f)] else acc) s1)
    as H2.
  destruct (convert_each _ _ _ _ rest _ s1). cbn [after] in *. congruence.
Qed.

(** When every attempt returns a boolean, so does the loop: it returns the
    metadata of the files whose attempt returned true, in order. *)
Lemma convert_each_attempts usd_files converted_assets s :
  all_returned (attempts env base_dir config usd_files s) ->
  outcome (convert_each env base_dir pack_id config usd_files converted_assets s)
  = Ok (converted_assets
        ++ metadata_of pack_id config
             (picked usd_files (attempts env base_dir config usd_files s))).
Proof.
  revert converted_assets s.
  induction usd_files as [|usd_file rest IH]; intros acc s Hall.
  - cbn. by rewrite app_nil_r.
  - revert Hall. cbn [convert_each attempts]. unfold bind.
    destruct (convert_usd_to_gltf _ _ _ _ s) as [[converted|e] s1 evs1]; intros Hall.
    + assert (Hrest : all_returned (attempts env base_dir config rest s1)).
      { intros e He. apply (Hall e). by apply list_elem_of_further. }
      set (acc' := if converted then _ else _).
      pose proof (IH acc' s1 Hrest) as Hloop.
      destruct (convert_each _ _ _ _ rest acc' s1) as [o s2 evs2]. cbn [outcome] in *.
      subst o acc'. destruct converted; cbn [picked metadata_of List.map];
        by rewrite <- ?app_assoc.
    + destruct (Hall e). apply list_elem_of_here.
Qed.

(** Of the attempts that all returned, those that returned true and those
    that returned false make up the files. *)
Lemma picked_count usd_files s :
  all_returned (attempts env base_dir config usd_files s) ->
  (length (picked usd_files (attempts env base_dir config usd_files s))
   + length (List.filter returned_false (attempts env base_dir config usd_files s)))%nat
  = length usd_files.
Proof.
  revert s. induction usd_files as [|usd_file rest IH]; intros s; [done|].
  cbn [attempts].
  destruct (convert_usd_to_gltf _ _ _ _ s) as [[converted|e] s1 evs1]; intros Hall.
  - assert (Hrest : all_returned (attempts env base_dir config rest s1)).
    { intros e He. apply (Hall e). by apply list_elem_of_further. }
    specialize (IH s1 Hrest). destruct converted; cbn; lia.
  - destruct (Hall e). apply list_elem_of_here.
Qed.

Lemma filter_split_length {A} (p : A -> bool) l :
  (length (List.filter p l) + length (List.filter (fun x => negb (p x)) l))%nat = length l.
Proof.
  induction l as [|x l IH]; [done|]. cbn. destruct (p x); cbn; lia.
Qed.

(** C6.  Only the first ten located files are converted: the files handed to
    the converter while a pack is processed are, in order, an initial part of
    the first ten files the locator returned (all ten of them when the pack
    is cataloged), so never more than ten and never a file from position 11
    on; and the entries the pack adds to its category are metadata of files
    among those first ten. *)
Theorem conversion_cap w :
  let r := process_asset_pack env base_dir pack_id config w in
  let usd_files := located env base_dir pack_id config w in
  conversions (events r) `prefix_of` take 10 usd_files
  /\ (length (conversions (events r)) <= 10)%nat
  /\ (outcome r = Ok tt -> conversions (events r) = take 10 usd_files)
  /\ exists picked,
       picked `sublist_of` take 10 usd_files
       /\ entries (registry (after r)) (category config)
          = entries (registry w) (category config) ++ metadata_of pack_id config picked.
Proof.
  cbv zeta.
  assert (Hmain :
    conversions (events (process_asset_pack env base_dir pack_id config w))
      `prefix_of` take 10 (located env base_dir pack_id config w)
    /\ (outcome (process_asset_pack env base_dir pack_id config w) = Ok tt ->
        conversions (events (process_asset_pack env base_dir pack_id config w))
        = take 10 (located env base_dir pack_id config w))
    /\ exists picked,
         picked `sublist_of` take 10 (located env base_dir pack_id config w)
         /\ entries (registry (after (process_asset_pack env base_dir pack_id config w)))
              (category config)
            = entries (registry w) (category config) ++ metadata_of pack_id config picked).
  { rewrite process_asset_pack_steps. unfold located.
    pose proof (emits_locate w) as Hfetch. pose proof (keeps_locate w) as Hreg3.
    destruct (locate env base_dir pack_id config w) as [[usd_files|e] w3 evs3];
      cbn [outcome after events] in *.
    2:{ rewrite (fetch_calls_convert_nothing _ Hfetch). split; [done|]. split; [done|].
        exists []. split; [done|]. by rewrite Hreg3, app_nil_r. }
    pose proof (emits_mkdir_exist_ok fetch_call
                  (output_dir base_dir </> category config) w3) as Hmk.
    pose proof (keeps_mkdir_exist_ok (output_dir base_dir </> category config) w3) as Hreg4.
    destruct (mkdir_exist_ok _ w3) as [[[]|e] w4 evs4]; cbn [outcome after events] in *.
    2:{ rewrite conversions_app, (fetch_calls_convert_nothing _ Hfetch),
          (fetch_calls_convert_nothing _ Hmk).
        split; [apply prefix_nil|]. split; [done|].
        exists []. split; [apply sublist_nil_l|]. by rewrite Hreg4, Hreg3, app_nil_r. }
    pose proof (convert_each_visits (take 10 usd_files) [] w4) as [Hprefix Hok].
    pose proof (keeps_convert_each env base_dir pack_id config (take 10 usd_files) [] w4)
      as Hreg5.
    destruct (convert_each _ _ _ _ _ _ w4) as [[converted_assets|e] w5 evs5];
      cbn [outcome after events registry] in *;
      rewrite !conversions_app, (fetch_calls_convert_nothing _ Hfetch),
        (fetch_calls_convert_nothing _ Hmk); cbn [app].
    - destruct (Hok converted_assets eq_refl) as (Hall & picked & Hsub & ->).
      split; [done|]. split; [done|]. exists picked. split; [done|].
      by rewrite entries_insert, Hreg5, Hreg4, Hreg3.
    - split; [done|]. split; [done|]. exists []. split; [apply sublist_nil_l|].
      by rewrite Hreg5, Hreg4, Hreg3, app_nil_r. }
  destruct Hmain as (Hprefix & Hall & Hpicked). repeat split; try done.
  apply prefix_length in Hprefix. rewrite length_take in Hprefix. lia.
Qed.

(** C3, as the code has it.  A pack that reaches its conversion loop and
    whose conversion attempts on the first ten located files each return a
    boolean is cataloged: with [N] located files, of which [M] among the first
    [min N 10] fail, it adds exactly [min N 10 - M] entries to its
    category. *)
Theorem per_asset_isolation w :
  let usd_files := located env base_dir pack_id config w in
  let start := after (prepare env base_dir pack_id config w) in
  let results := attempts env base_dir config (take 10 usd_files) start in
  let N := length usd_files in
  let M := length (List.filter returned_false results) in
  outcome (prepare env base_dir pack_id config w) = Ok tt ->
  all_returned results ->
  let r := process_asset_pack env base_dir pack_id config w in
  final_state r = CATALOGED
  /\ outcome r = Ok tt
  /\ length (entries (registry (after r)) (category config))
     = (length (entries (registry w) (category config)) + (Nat.min N 10 - M))%nat
  /\ (M <= Nat.min N 10)%nat.
Proof.
  cbv zeta. unfold located, final_state.
  rewrite process_asset_pack_steps, prepare_steps.
  pose proof (keeps_locate w) as Hreg3.
  destruct (locate env base_dir pack_id config w) as [[usd_files|e] w3 evs3];
    cbn [outcome after events] in *; [|done].
  pose proof (keeps_mkdir_exist_ok (output_dir base_dir </> category config) w3) as Hreg4.
  destruct (mkdir_exist_ok _ w3) as [[[]|e] w4 evs4];
    cbn [outcome after events] in *; [|done].
  intros _ Hall.
  pose proof (convert_each_attempts (take 10 usd_files) [] w4 Hall) as Hloop.
  pose proof (picked_count (take 10 usd_files) w4 Hall) as Hcount.
  pose proof (keeps_convert_each env base_dir pack_id config (take 10 usd_files) [] w4)
    as Hreg5.
  destruct (convert_each _ _ _ _ _ _ w4) as [o w5 evs5].
  cbn [outcome after events registry] in *. subst o.
  cbn [outcome after events registry fs app].
  rewrite entries_insert, Hreg5, Hreg4, Hreg3.
  rewrite length_take in Hcount.
  repeat split; try done.
  - rewrite length_app. unfold metadata_of. rewrite length_map. lia.
  - lia.
Qed.

End Pack.

Lemma per_asset_isolation_witness :
  let usd_files :=
    located Samples.studio Samples.base "p1" Samples.warehouse Samples.empty_world in
  let start :=
    after (prepare Samples.studio Samples.base "p1" Samples.warehouse Samples.empty_world) in
  let results :=
    attempts Samples.studio Samples.base Samples.warehouse (take 10 usd_files) start in
  let N := length usd_files in
  let M := length (List.filter returned_false results) in
  let r := process_asset_pack Samples.studio Samples.base "p1" Samples.warehouse
             Samples.empty_world in
  final_state r = CATALOGED
  /\ outcome r = Ok tt
  /\ length (entries (registry (after r)) (category Samples.warehouse))
     = (length (entries (registry Samples.empty_world) (category Samples.warehouse))
        + (Nat.min N 10 - M))%nat
  /\ (M <= Nat.min N 10)%nat.
Proof.
  apply (per_asset_isolation Samples.studio Samples.base "p1" Samples.warehouse
           Samples.empty_world).
  - vm_compute. reflexivity.
  - intros e He. vm_compute in He.
    repeat (apply elem_of_cons in He as [He|He]; [discriminate He|]).
    by apply elem_of_nil in He.
Defined.

(** The numbers of the studio scenario: two located files, one conversion
    fails, one entry is added. *)
Example studio_counts :
  let usd_files :=
    located Samples.studio Samples.base "p1" Samples.warehouse Samples.empty_world in
  let r := process_asset_pack Samples.studio Samples.base "p1" Samples.warehouse
             Samples.empty_world in
  length usd_files = 2%nat
  /\ List.map a_id (entries (registry (after r)) "warehouse") = ["p1_a"].
Proof. vm_compute. by split. Qed.

(** Eleven located files, all convertible: ten entries are added, not
    eleven. *)
Lemma eleventh_file_is_not_recorded : ~ isolation_counts_all_located.
Proof.
  intros Hclaim.
  specialize (Hclaim Samples.bulk Samples.base "p1" Samples.warehouse Samples.empty_world).
  cbv zeta in Hclaim.
  destruct Hclaim as [_ Hlength].
  - vm_compute. reflexivity.
  - intros e He. vm_compute in He.
    repeat (apply elem_of_cons in He as [He|He]; [discriminate He|]).
    by apply elem_of_nil in He.
  - vm_compute. lia.
  - vm_compute in Hlength. discriminate.
Qed.

(** ** The sample environments at work *)

(** The three ways a conversion can go: [usd2gltf] succeeds and Blender is
    left alone; [usd2gltf] is missing and Blender converts; nothing is
    installed and the conversion returns false. *)
Example converter_chain_samples :
  let usd_file := download_dir Samples.base </> "p1" </> "a.usd" in
  let output_path := gltf_output Samples.base Samples.warehouse usd_file in
  let first := convert_usd_to_gltf Samples.bulk Samples.base usd_file output_path
                 Samples.empty_world in
  let second := convert_usd_to_gltf Samples.studio Samples.base usd_file output_path
                  Samples.empty_world in
  let neither := convert_usd_to_gltf Samples.offline Samples.base usd_file output_path
                   Samples.empty_world in
  (outcome first = Ok true
   /\ subprocesses (events first) = [usd2gltf_argv usd_file output_path])
  /\ (outcome second = Ok true
      /\ subprocesses (events second) = [blender_argv Samples.base])
  /\ (outcome neither = Ok false /\ subprocesses (events neither) = []).
Proof. vm_compute. repeat split; reflexivity. Qed.

(** The script itself, without network or converters: every pack of the
    catalogue is started and fails, and the empty registry is saved once. *)
Example offline_main :
  let r := main Samples.offline Samples.base Samples.empty_world in
  outcome r = Ok tt
  /\ started (events r) = NVIDIA_ASSETS.*1
  /\ failed (events r) = NVIDIA_ASSETS.*1
  /\ saves (events r) = [metadata_file Samples.base]
  /\ registry (after r) = ∅
  /\ fs (after r) !! metadata_file Samples.base = Some (EFile (Json ∅)).
Proof. vm_compute. repeat split; reflexivity. Qed.

(** ** Downloader and Extractor, further *)

Section Fetching.

Variable env : environment.
Variable base_dir : path.

(** [download_asset_pack] of a pack whose archive path exists. *)
Lemma download_asset_pack_present pack_id config w :
  path_exists (fs w) (zip_path_of base_dir pack_id) = true ->
  download_asset_pack env base_dir pack_id config w
  = Run (Ok (zip_path_of base_dir pack_id)) w [].
Proof.
  intros Hex. unfold download_asset_pack. fold (zip_path_of base_dir pack_id).
  unfold bind, get_fs. by rewrite Hex.
Qed.

(** [extract_pack] of a pack whose extraction path is free, case by case. *)
Lemma extract_pack_run zip_path pack_id w :
  path_exists (fs w) (download_dir base_dir </> pack_id) = false ->
  extract_pack env base_dir zip_path pack_id w
  = match fs w !! zip_path with
    | None => Run (Raise FileNotFoundError) w []
    | Some (EDir _) => Run (Raise IsADirectoryError) w []
    | Some (EFile (Json _)) => Run (Raise BadZipFile) w []
    | Some (EFile (Raw bytes)) =>
        match unzip env bytes with
        | None => Run (Raise BadZipFile) w []
        | Some tree =>
            Run (Ok (download_dir base_dir </> pack_id))
                (World (<[download_dir base_dir </> pack_id := EDir tree]> (fs w))
                       (registry w))
                []
        end
    end.
Proof.
  intros Hfree. unfold extract_pack. unfold bind at 1. unfold get_fs. rewrite Hfree.
  unfold try_except, bind, put_fs, ret, raise.
  destruct (fs w !! zip_path) as [[[bytes|reg]|children]|]; try done.
  by destruct (unzip env bytes).
Qed.

(** [extract_pack] of a pack whose extraction path exists. *)
Lemma extract_pack_present zip_path pack_id w :
  path_exists (fs w) (download_dir base_dir </> pack_id) = true ->
  extract_pack env base_dir zip_path pack_id w
  = Run (Ok (download_dir base_dir </> pack_id)) w [].
Proof.
  intros Hex. unfold extract_pack, bind, get_fs. by rewrite Hex.
Qed.

(** X1.  A pack whose extraction path exists is not extracted again:
    [extract_pack] returns that path without reading the archive (which need
    not exist, and is not unzipped), makes no call and leaves the world as it
    was. *)
Theorem extract_pack_idempotent zip_path pack_id w :
  path_exists (fs w) (download_dir base_dir </> pack_id) = true ->
  let r := extract_pack env base_dir zip_path pack_id w in
  outcome r = Ok (download_dir base_dir </> pack_id)
  /\ events r = []
  /\ after r = w.
Proof.
  intros Hex. cbv zeta. by rewrite extract_pack_present.
Qed.

(** X2.  A download that goes through stores the body: for a missing
    archive, a response whose status passes the check, whose length header is
    absent or a number, and whose stream does not break, the download makes
    the one GET, returns the archive path and leaves there the chunks in
    order; nothing else changes. *)
Theorem download_stores_body pack_id config w status len chunks :
  path_exists (fs w) (zip_path_of base_dir pack_id) = false ->
  http_get env (url config) = Response status len chunks false ->
  ~ (400 <= status < 600) ->
  len <> MalformedLength ->
  download_asset_pack env base_dir pack_id config w
  = Run (Ok (zip_path_of base_dir pack_id))
        (World (<[zip_path_of base_dir pack_id := EFile (Raw (body chunks))]> (fs w))
               (registry w))
        [HttpGet (url config)].
Proof.
  intros Habsent Hget Hpass Hlen. rewrite download_asset_pack_run by done.
  cbv zeta. rewrite Hget.
  assert (((400 <=? status)%Z && (status <? 600)%Z)%bool = false) as ->.
  { apply not_true_is_false. intros [Hlo Hhi]%andb_prop.
    apply Z.leb_le in Hlo. apply Z.ltb_lt in Hhi. by apply Hpass. }
  by destruct len.
Qed.

(** X3.  A length header that is no number fails the download before the
    archive is opened: the status passed, yet [ValueError] is raised after the
    one GET and the world is as it was. *)
Theorem malformed_length_fails_download pack_id config w status chunks broken :
  path_exists (fs w) (zip_path_of base_dir pack_id) = false ->
  http_get env (url config) = Response status MalformedLength chunks broken ->
  ~ (400 <= status < 600) ->
  download_asset_pack env base_dir pack_id config w
  = Run (Raise ValueError) w [HttpGet (url config)].
Proof.
  intros Habsent Hget Hpass. rewrite download_asset_pack_run by done.
  cbv zeta. rewrite Hget.
  assert (((400 <=? status)%Z && (status <? 600)%Z)%bool = false) as ->; [|done].
  apply not_true_is_false. intros [Hlo Hhi]%andb_prop.
  apply Z.leb_le in Hlo. apply Z.ltb_lt in Hhi. by apply Hpass.
Qed.

(** X4.  A stream that breaks leaves a partial archive, and the next
    download takes it for the archive: the first download raises with the
    chunks received so far at the archive path; a second download from the
    world it left returns that path without any network call. *)
Theorem partial_archive_is_accepted pack_id config w status len chunks :
  path_exists (fs w) (zip_path_of base_dir pack_id) = false ->
  http_get env (url config) = Response status len chunks true ->
  ~ (400 <= status < 600) ->
  len <> MalformedLength ->
  let first := download_asset_pack env base_dir pack_id config w in
  let second := download_asset_pack env base_dir pack_id config (after first) in
  outcome first = Raise ChunkedEncodingError
  /\ fs (after first) !! zip_path_of base_dir pack_id = Some (EFile (Raw (body chunks)))
  /\ second = Run (Ok (zip_path_of base_dir pack_id)) (after first) [].
Proof.
  intros Habsent Hget Hpass Hlen. cbv zeta.
  assert (Hfirst : download_asset_pack env base_dir pack_id config w
            = Run (Raise ChunkedEncodingError)
                (World (<[zip_path_of base_dir pack_id := EFile (Raw (body chunks))]> (fs w))
                       (registry w))
                [HttpGet (url config)]).
  { rewrite download_asset_pack_run by done. cbv zeta. rewrite Hget.
    assert (((400 <=? status)%Z && (status <? 600)%Z)%bool = false) as ->.
    { apply not_true_is_false. intros [Hlo Hhi]%andb_prop.
      apply Z.leb_le in Hlo. apply Z.ltb_lt in Hhi. by apply Hpass. }
    by destruct len. }
  rewrite Hfirst. cbn [outcome after fs]. split; [done|].
  split; [apply lookup_insert_eq|].
  apply download_asset_pack_present. unfold path_exists. cbn [fs].
  by rewrite lookup_insert_eq.
Qed.

(** X5.  A directory at the archive path passes for the archive and then
    fails the extraction: the pack is processed without a network call, raises
    [IsADirectoryError] and leaves the world as it was. *)
Theorem directory_at_archive_path pack_id config w children :
  fs w !! zip_path_of base_dir pack_id = Some (EDir children) ->
  path_exists (fs w) (download_dir base_dir </> pack_id) = false ->
  process_asset_pack env base_dir pack_id config w
  = Run (Raise IsADirectoryError) w [Processing pack_id].
Proof.
  intros Hzip Hfree. unfold process_asset_pack. unfold bind at 1. unfold emit.
  unfold bind at 1. rewrite download_asset_pack_present
    by (unfold path_exists; by rewrite Hzip).
  unfold bind at 1. rewrite extract_pack_run by done. by rewrite Hzip.
Qed.

End Fetching.

Lemma extract_pack_idempotent_witness :
  let r := extract_pack Samples.offline Samples.base (zip_path_of Samples.base "p1") "p1"
             Samples.extracted_world in
  outcome r = Ok (download_dir Samples.base </> "p1")
  /\ events r = []
  /\ after r = Samples.extracted_world.
Proof.
  apply (extract_pack_idempotent Samples.offline Samples.base
           (zip_path_of Samples.base "p1") "p1" Samples.extracted_world).
  vm_compute. reflexivity.
Defined.

Lemma download_stores_body_witness :
  download_asset_pack Samples.studio Samples.base "p1" Samples.warehouse Samples.empty_world
  = Run (Ok (zip_path_of Samples.base "p1"))
        (World (<[zip_path_of Samples.base "p1" := EFile (Raw (body ["PK"; "data"]))]>
                  (fs Samples.empty_world))
               (registry Samples.empty_world))
        [HttpGet (url Samples.warehouse)].
Proof.
  apply (download_stores_body Samples.studio Samples.base "p1" Samples.warehouse
           Samples.empty_world 200 NoLength ["PK"; "data"]).
  - vm_compute. reflexivity.
  - vm_compute. reflexivity.
  - lia.
  - discriminate.
Defined.

Lemma malformed_length_fails_download_witness :
  download_asset_pack Samples.garbled Samples.base "p1" Samples.warehouse Samples.empty_world
  = Run (Raise ValueError) Samples.empty_world [HttpGet (url Samples.warehouse)].
Proof.
  apply (malformed_length_fails_download Samples.garbled Samples.base "p1" Samples.warehouse
           Samples.empty_world 200 ["PK"] false).
  - vm_compute. reflexivity.
  - vm_compute. reflexivity.
  - lia.
Defined.

Lemma partial_archive_is_accepted_witness :
  let first := download_asset_pack Samples.flaky Samples.base "p1" Samples.warehouse
                 Samples.empty_world in
  let second := download_asset_pack Samples.flaky Samples.base "p1" Samples.warehouse
                  (after first) in
  outcome first = Raise ChunkedEncodingError
  /\ fs (after first) !! zip_path_of Samples.base "p1"
     = Some (EFile (Raw (body ["PK"; "half"])))
  /\ second = Run (Ok (zip_path_of Samples.base "p1")) (after first) [].
Proof.
  apply (partial_archive_is_accepted Samples.flaky Samples.base "p1" Samples.warehouse
           Samples.empty_world 200 (Length 100) ["PK"; "half"]).
  - vm_compute. reflexivity.
  - vm_compute. reflexivity.
  - lia.
  - discriminate.
Defined.

Lemma directory_at_archive_path_witness :
  process_asset_pack Samples.offline Samples.base "p1" Samples.warehouse
    Samples.directory_archive_world
  = Run (Raise IsADirectoryError) Samples.directory_archive_world [Processing "p1"].
Proof.
  apply (directory_at_archive_path Samples.offline Samples.base "p1" Samples.warehouse
           Samples.directory_archive_world []).
  - vm_compute. reflexivity.
  - vm_compute. reflexivity.
Defined.

(** ** What the pipeline never does *)

Lemma path_exists_insert (f : filesystem) p e q :
  path_exists f q = true -> path_exists (<[p := e]> f) q = true.
Proof.
  unfold path_exists. destruct (decide (p = q)) as [->|Hne].
  - by rewrite lookup_insert_eq.
  - by rewrite lookup_insert_ne.
Qed.

Lemma never_deletes_ret {A} (a : A) : never_deletes (ret a).
Proof. by intros w p. Qed.
Lemma never_deletes_raise {A} e : never_deletes (@raise A e).
Proof. by intros w p. Qed.
Lemma never_deletes_emit e : never_deletes (emit e).
Proof. by intros w p. Qed.
Lemma never_deletes_get_fs : never_deletes get_fs.
Proof. by intros w p. Qed.
Lemma never_deletes_get_registry : never_deletes get_registry.
Proof. by intros w p. Qed.

Lemma never_deletes_bind {A B} (m : pipe A) (k : A -> pipe B) :
  never_deletes m -> (forall a, never_deletes (k a)) -> never_deletes (bind m k).
Proof.
  intros Hm Hk w p Hp. unfold bind. specialize (Hm w p Hp).
  destruct (m w) as [[a|e] w1 evs1]; cbn [after] in *; [|done].
  specialize (Hk a w1 p Hm). by destruct (k a w1).
Qed.

Lemma never_deletes_try_except {A} (m : pipe A) (h : exn -> pipe A) :
  never_deletes m -> (forall e, never_deletes (h e)) -> never_deletes (try_except m h).
Proof.
  intros Hm Hh w p Hp. unfold try_except. specialize (Hm w p Hp).
  destruct (m w) as [[a|e] w1 evs1]; cbn [after] in *; [done|].
  specialize (Hh e w1 p Hm). by destruct (h e w1).
Qed.

Lemma never_deletes_write_file p c : never_deletes (write_file p c).
Proof.
  intros w q Hq. rewrite write_file_run.
  destruct (fs w !! p) as [[]|]; cbn [after fs]; try done; by apply path_exists_insert.
Qed.

Lemma never_deletes_mkdir_exist_ok p : never_deletes (mkdir_exist_ok p).
Proof.
  intros w q Hq. rewrite mkdir_exist_ok_run.
  destruct (fs w !! p) as [[]|]; cbn [after fs]; try done; by apply path_exists_insert.
Qed.

Lemma never_deletes_write_chunks p written chunks :
  never_deletes (write_chunks p written chunks).
Proof.
  revert written. induction chunks as [|chunk rest IH]; intros written.
  - apply never_deletes_ret.
  - cbn [write_chunks].
    apply never_deletes_bind; [apply never_deletes_write_file | intros _; apply IH].
Qed.

Lemma never_deletes_record cat converted_assets :
  never_deletes (record cat converted_assets).
Proof. intros w p Hp. by rewrite record_run. Qed.

Lemma never_deletes_find_usd_files directory : never_deletes (find_usd_files directory).
Proof. intros w p Hp. by rewrite find_usd_files_run. Qed.

Lemma emits_weaken {A} (P Q : event -> Prop) (m : pipe A) :
  (forall e, P e -> Q e) -> emits P m -> emits Q m.
Proof. intros HPQ Hm w. eapply Forall_impl; [apply Hm | done]. Qed.

Lemma local_calls_offline evs : Forall local_call evs -> network_calls evs = [].
Proof. induction 1 as [|e evs He _ IH]; [done|]. by destruct e. Qed.

Lemma network_calls_app evs1 evs2 :
  network_calls (evs1 ++ evs2) = network_calls evs1 ++ network_calls evs2.
Proof. apply omap_app. Qed.

Section NeverDoes.

Variable env : environment.
Variable base_dir : path.

Lemma never_deletes_download_asset_pack pack_id config :
  never_deletes (download_asset_pack env base_dir pack_id config).
Proof.
  unfold download_asset_pack.
  apply never_deletes_bind; [apply never_deletes_get_fs | intros f].
  destruct (path_exists _ _); [apply never_deletes_ret|].
  apply never_deletes_try_except; [|intros e; apply never_deletes_raise].
  apply never_deletes_bind; [apply never_deletes_emit | intros _].
  destruct (http_get _ _) as [|status len chunks broken]; [apply never_deletes_raise|].
  apply never_deletes_bind; [|intros _].
  { unfold raise_for_status. destruct (_ && _)%bool;
      [apply never_deletes_raise | apply never_deletes_ret]. }
  apply never_deletes_bind; [|intros _].
  { destruct len; [apply never_deletes_ret | apply never_deletes_ret
                  | apply never_deletes_raise]. }
  apply never_deletes_bind; [apply never_deletes_write_file | intros _].
  apply never_deletes_bind; [apply never_deletes_write_chunks | intros _].
  destruct broken; [apply never_deletes_raise | apply never_deletes_ret].
Qed.

Lemma never_deletes_extract_pack zip_path pack_id :
  never_deletes (extract_pack env base_dir zip_path pack_id).
Proof.
  intros w p Hp.
  destruct (path_exists (fs w) (download_dir base_dir </> pack_id)) eqn:Hdir.
  - by rewrite extract_pack_present.
  - rewrite extract_pack_run by done.
    destruct (fs w !! zip_path) as [[[bytes|reg]|children]|]; try done.
    destruct (unzip env bytes); [|done]. cbn [after fs]. by apply path_exists_insert.
Qed.

Lemma never_deletes_convert_usd_to_gltf usd_file output_path :
  never_deletes (convert_usd_to_gltf env base_dir usd_file output_path).
Proof.
  intros w p Hp. rewrite convert_usd_to_gltf_run. cbv zeta. unfold blender_fallback.
  destruct (which env "usd2gltf"), (which env "blender");
    repeat match goal with
           | |- context [spawn env ?a ?g] => destruct (spawn env a g) as [?c|]
           | |- context [(?c =? 0)%Z] => destruct (c =? 0)%Z
           | |- context [fs w !! ?q] => destruct (fs w !! q) as [[]|]
           end; cbn [after fs]; try done; by apply path_exists_insert.
Qed.

Lemma never_deletes_convert_each pack_id config usd_files converted_assets :
  never_deletes (convert_each env base_dir pack_id config usd_files converted_assets).
Proof.
  revert converted_assets. induction usd_files as [|f rest IH]; intros acc.
  - apply never_deletes_ret.
  - cbn [convert_each].
    apply never_deletes_bind; [apply never_deletes_convert_usd_to_gltf | intros b; apply IH].
Qed.

Lemma never_deletes_after_download pack_id config zip_path :
  never_deletes (after_download env base_dir pack_id config zip_path).
Proof.
  unfold after_download.
  apply never_deletes_bind; [apply never_deletes_extract_pack | intros extract_dir].
  apply never_deletes_bind; [apply never_deletes_find_usd_files | intros usd_files].
  apply never_deletes_bind; [apply never_deletes_mkdir_exist_ok | intros _].
  apply never_deletes_bind; [apply never_deletes_convert_each | intros converted_assets].
  apply never_deletes_record.
Qed.

(** [process_asset_pack]: the download, then the rest. *)
Lemma process_asset_pack_download pack_id config w :
  process_asset_pack env base_dir pack_id config w
  = match download_asset_pack env base_dir pack_id config w with
    | Run (Raise e) w1 evs1 => Run (Raise e) w1 (Processing pack_id :: evs1)
    | Run (Ok zip_path) w1 evs1 =>
        match after_download env base_dir pack_id config zip_path w1 with
        | Run o w2 evs2 => Run o w2 (Processing pack_id :: evs1 ++ evs2)
        end
    end.
Proof.
  unfold process_asset_pack. unfold bind at 1. unfold emit. unfold bind at 1.
  destruct (download_asset_pack env base_dir pack_id config w) as [[zip_path|e] w1 evs1];
    [|done].
  fold (after_download env base_dir pack_id config zip_path).
  by destruct (after_download env base_dir pack_id config zip_path w1).
Qed.

Lemma never_deletes_process_asset_pack pack_id config :
  never_deletes (process_asset_pack env base_dir pack_id config).
Proof.
  unfold process_asset_pack.
  apply never_deletes_bind; [apply never_deletes_emit | intros _].
  apply never_deletes_bind; [apply never_deletes_download_asset_pack | intros zip_path].
  apply (never_deletes_after_download pack_id config zip_path).
Qed.

Lemma never_deletes_save_registry : never_deletes (save_registry base_dir).
Proof.
  unfold save_registry.
  apply never_deletes_bind; [apply never_deletes_emit | intros _].
  apply never_deletes_bind; [apply never_deletes_get_registry | intros reg].
  apply never_deletes_write_file.
Qed.

Lemma never_deletes_run_packs packs : never_deletes (run_packs env base_dir packs).
Proof.
  induction packs as [|[pack_id config] rest IH]; [apply never_deletes_ret|].
  cbn [run_packs]. apply never_deletes_bind; [|intros _; apply IH].
  apply never_deletes_try_except;
    [apply never_deletes_process_asset_pack | intros e; apply never_deletes_emit].
Qed.

(** X6.  A run never deletes: every path that exists when [run] starts (an
    archive, an extracted tree, any other file) still exists when it ends,
    however the packs and the save went. *)
Theorem run_never_deletes packs w p :
  path_exists (fs w) p = true ->
  path_exists (fs (after (run env base_dir packs w))) p = true.
Proof.
  revert w p. change (never_deletes (run env base_dir packs)). unfold run.
  apply never_deletes_bind; [apply never_deletes_run_packs | intros _].
  apply never_deletes_save_registry.
Qed.

Lemma emits_conversion_calls usd_file output_path :
  emits conversion_call (convert_usd_to_gltf env base_dir usd_file output_path).
Proof.
  intros w. rewrite convert_usd_to_gltf_run. cbv zeta. unfold blender_fallback.
  destruct (which env "usd2gltf"), (which env "blender");
    repeat match goal with
           | |- context [spawn env ?a ?g] => destruct (spawn env a g) as [?c|]
           | |- context [(?c =? 0)%Z] => destruct (c =? 0)%Z
           | |- context [fs w !! ?q] => destruct (fs w !! q) as [[]|]
           end; cbn [events app]; by repeat constructor.
Qed.

Lemma emits_local_convert_each pack_id config usd_files converted_assets :
  emits local_call (convert_each env base_dir pack_id config usd_files converted_assets).
Proof.
  revert converted_assets. induction usd_files as [|f rest IH]; intros acc.
  - apply emits_ret.
  - cbn [convert_each]. apply emits_bind; [|intros b; apply IH].
    eapply emits_weaken; [|apply emits_conversion_calls]. by intros [].
Qed.

Lemma emits_local_after_download pack_id config zip_path :
  emits local_call (after_download env base_dir pack_id config zip_path).
Proof.
  unfold after_download.
  apply emits_bind; [apply emits_extract_pack | intros extract_dir].
  apply emits_bind; [apply emits_find_usd_files | intros usd_files].
  apply emits_bind; [apply emits_mkdir_exist_ok | intros _].
  apply emits_bind; [apply emits_local_convert_each | intros converted_assets].
  apply emits_record.
Qed.

(** With the archive in place a pack is processed without the network. *)
Lemma process_asset_pack_offline pack_id config w :
  path_exists (fs w) (zip_path_of base_dir pack_id) = true ->
  network_calls (events (process_asset_pack env base_dir pack_id config w)) = [].
Proof.
  intros Hzip. apply local_calls_offline.
  rewrite process_asset_pack_download, download_asset_pack_present by done.
  pose proof (emits_local_after_download pack_id config
                (zip_path_of base_dir pack_id) w) as Hrest.
  destruct (after_download _ _ _ _ _ w) as [o w2 evs2]. by constructor.
Qed.

Lemma download_asset_pack_leaves_archive pack_id config w zip_path :
  outcome (download_asset_pack env base_dir pack_id config w) = Ok zip_path ->
  path_exists (fs (after (download_asset_pack env base_dir pack_id config w)))
    (zip_path_of base_dir pack_id) = true.
Proof.
  destruct (path_exists (fs w) (zip_path_of base_dir pack_id)) eqn:Hzip.
  - by rewrite download_asset_pack_present.
  - rewrite download_asset_pack_run by done. cbv zeta.
    destruct (http_get env (url config)) as [|status len chunks broken]; [done|].
    destruct (_ && _)%bool; [done|].
    destruct len; try done; intros _; unfold path_exists; cbn [after fs];
      by rewrite lookup_insert_eq.
Qed.

(** X7.  A cataloged pack is not fetched again: when [process_asset_pack]
    has returned, processing the same pack once more from the world it left
    makes no network call. *)
Theorem cataloged_pack_is_not_fetched_again pack_id config w :
  outcome (process_asset_pack env base_dir pack_id config w) = Ok tt ->
  network_calls
    (events (process_asset_pack env base_dir pack_id config
               (after (process_asset_pack env base_dir pack_id config w))))
  = [].
Proof.
  intros Hok. apply process_asset_pack_offline. revert Hok.
  rewrite process_asset_pack_download.
  pose proof (download_asset_pack_leaves_archive pack_id config w) as Hzip.
  destruct (download_asset_pack env base_dir pack_id config w) as [[zip_path|e] w1 evs1];
    [|done].
  specialize (Hzip zip_path eq_refl). cbn [after] in Hzip.
  pose proof (never_deletes_after_download pack_id config zip_path w1 _ Hzip) as Hkept.
  by destruct (after_download _ _ _ _ _ w1) as [o w2 evs2].
Qed.

(** [save_registry], case by case. *)
Lemma save_registry_run w :
  save_registry base_dir w
  = match fs w !! metadata_file base_dir with
    | Some (EDir _) =>
        Run (Raise IsADirectoryError) w [SaveRegistry (metadata_file base_dir)]
    | _ =>
        Run (Ok tt)
            (World (<[metadata_file base_dir := EFile (Json (registry w))]> (fs w))
                   (registry w))
            [SaveRegistry (metadata_file base_dir)]
    end.
Proof.
  unfold save_registry, bind, emit, get_registry. rewrite write_file_run.
  by destruct (fs w !! metadata_file base_dir) as [[]|].
Qed.

(** X8.  What [run] leaves behind: it can only raise out of the final save,
    and only [IsADirectoryError] because a directory stands at the registry
    path; otherwise the registry file holds the JSON of the final registry,
    whatever stood there before. *)
Theorem run_saves_final_registry packs w :
  let r := run env base_dir packs w in
  match outcome r with
  | Ok _ => fs (after r) !! metadata_file base_dir = Some (EFile (Json (registry (after r))))
  | Raise e =>
      e = IsADirectoryError
      /\ exists children, fs (after r) !! metadata_file base_dir = Some (EDir children)
  end.
Proof.
  cbv zeta. unfold run, bind.
  destruct (run_packs_observed env base_dir packs w) as (Hok & _ & _).
  destruct (run_packs env base_dir packs w) as [o w1 evs1]. cbn [outcome] in Hok. subst o.
  rewrite save_registry_run.
  destruct (fs w1 !! metadata_file base_dir) as [[c|children]|] eqn:L;
    cbn [outcome after fs registry].
  - apply lookup_insert_eq.
  - split; [done|]. by exists children.
  - apply lookup_insert_eq.
Qed.


End NeverDoes.

Lemma run_never_deletes_witness :
  path_exists
    (fs (after (run Samples.offline Samples.base NVIDIA_ASSETS Samples.downloaded_world)))
    (download_dir Samples.base </> "p1.zip") = true.
Proof.
  apply (run_never_deletes Samples.offline Samples.base NVIDIA_ASSETS
           Samples.downloaded_world (download_dir Samples.base </> "p1.zip")).
  vm_compute. reflexivity.
Defined.

Lemma cataloged_pack_is_not_fetched_again_witness :
  network_calls
    (events (process_asset_pack Samples.studio Samples.base "p1" Samples.warehouse
               (after (process_asset_pack Samples.studio Samples.base "p1" Samples.warehouse
                         Samples.empty_world))))
  = [].
Proof.
  apply (cataloged_pack_is_not_fetched_again Samples.studio Samples.base "p1"
           Samples.warehouse Samples.empty_world).
  vm_compute. reflexivity.
Defined.

(** ** The registry over a whole run *)

Lemma metadata_filed_under pack_id config usd_files :
  Forall (filed_under (category config)) (metadata_of pack_id config usd_files).
Proof.
  unfold metadata_of. induction usd_files as [|f rest IH]; constructor; [by split | done].
Qed.

Lemma entries_insert_ne (reg : registry_t) cat other l :
  cat <> other -> entries (<[cat := l]> reg) other = entries reg other.
Proof. intros Hne. unfold entries. by rewrite lookup_insert_ne. Qed.

Section RegistryOverRun.

Variable env : environment.
Variable base_dir : path.

(** The registry after a pack: as before, or with the metadata of some of
    the first ten located files appended to the pack's category. *)
Lemma process_asset_pack_update pack_id config w :
  pack_update config (registry w)
    (registry (after (process_asset_pack env base_dir pack_id config w))).
Proof.
  rewrite process_asset_pack_steps.
  pose proof (keeps_locate env base_dir pack_id config w) as Hreg3.
  destruct (locate env base_dir pack_id config w) as [[usd_files|e] w3 evs3];
    cbn [after] in *; [|by left].
  pose proof (keeps_mkdir_exist_ok (output_dir base_dir </> category config) w3) as Hreg4.
  destruct (mkdir_exist_ok _ w3) as [[[]|e] w4 evs4]; cbn [after] in *;
    [|left; congruence].
  pose proof (convert_each_visits env base_dir pack_id config (take 10 usd_files) [] w4)
    as [_ Hok].
  pose proof (keeps_convert_each env base_dir pack_id config (take 10 usd_files) [] w4)
    as Hreg5.
  destruct (convert_each _ _ _ _ _ _ w4) as [[converted_assets|e] w5 evs5];
    cbn [outcome after registry] in *; [|left; congruence].
  destruct (Hok converted_assets eq_refl) as (_ & picked & Hsub & ->).
  right. exists (metadata_of pack_id config picked). split; [|split].
  - unfold metadata_of. rewrite length_map.
    apply sublist_length in Hsub. rewrite length_take in Hsub. lia.
  - apply metadata_filed_under.
  - by rewrite Hreg5, Hreg4, Hreg3.
Qed.

Lemma save_registry_keeps_registry w :
  registry (after (save_registry base_dir w)) = registry w.
Proof.
  rewrite save_registry_run. by destruct (fs w !! metadata_file base_dir) as [[]|].
Qed.

(** A property of registries that every pack update keeps is kept by the
    loop of [run], and by [run]. *)
Lemma run_packs_registry (Q : list (string * pack_config) -> registry_t -> Prop) :
  (forall done pack_id config reg reg',
     Q done reg -> pack_update config reg reg' -> Q (done ++ [(pack_id, config)]) reg') ->
  forall packs done w,
    Q done (registry w) ->
    Q (done ++ packs) (registry (after (run_packs env base_dir packs w))).
Proof.
  intros Hstep. induction packs as [|[pack_id config] rest IH]; intros done w HQ.
  - by rewrite app_nil_r.
  - rewrite run_packs_cons. cbn [after].
    replace (done ++ (pack_id, config) :: rest)
      with ((done ++ [(pack_id, config)]) ++ rest) by (by rewrite <- app_assoc).
    apply IH. eapply Hstep; [done|]. apply process_asset_pack_update.
Qed.

Lemma run_registry packs w :
  registry (after (run env base_dir packs w))
  = registry (after (run_packs env base_dir packs w)).
Proof.
  unfold run, bind.
  destruct (run_packs_observed env base_dir packs w) as (Hok & _ & _).
  destruct (run_packs env base_dir packs w) as [o w1 evs1]. cbn [outcome] in Hok. subst o.
  pose proof (save_registry_keeps_registry w1) as Hsave.
  by destruct (save_registry base_dir w1).
Qed.

(** X10.  Entries stay under their own category: when every entry of the
    registry carries the category it is filed under (and the provenance tag),
    the same holds after [run], whatever the packs did. *)
Theorem run_keeps_registry_well_filed packs w :
  well_filed (registry w) ->
  well_filed (registry (after (run env base_dir packs w))).
Proof.
  intros Hw. rewrite run_registry.
  refine (run_packs_registry (fun _ reg => well_filed reg) _ packs [] w Hw).
  intros _ _ config reg reg' Hreg [->|(assets & _ & Hfiled & ->)]; [done|].
  intros cat l. destruct (decide (category config = cat)) as [<-|Hne].
  - rewrite lookup_insert_eq. intros [= <-]. apply Forall_app. split; [|done].
    unfold entries. destruct (reg !! category config) as [old|] eqn:Hold; [|done].
    by apply (Hreg _ _ Hold).
  - rewrite lookup_insert_ne by done. apply Hreg.
Qed.

(** X11.  A run only appends: after [run] every category's sequence starts
    with the sequence it had before (nothing removed, reordered or changed),
    and a category that no pack of the catalogue names is as it was. *)
Theorem run_only_appends packs w :
  let reg := registry (after (run env base_dir packs w)) in
  continues (registry w) reg
  /\ forall cat, cat ∉ List.map (fun pack => category pack.2) packs ->
       reg !! cat = registry w !! cat.
Proof.
  cbv zeta. rewrite run_registry.
  refine (run_packs_registry
            (fun done reg =>
               continues (registry w) reg
               /\ forall cat, cat ∉ List.map (fun pack => category pack.2) done ->
                    reg !! cat = registry w !! cat)
            _ packs [] w _); [|split; [by intros cat | done]].
  intros done pack_id config reg reg' [Hcont Hother] Hupdate. split.
  - intros cat. specialize (Hcont cat).
    destruct Hupdate as [->|(assets & _ & _ & ->)]; [done|].
    destruct (decide (category config = cat)) as [<-|Hne].
    + rewrite entries_insert. etrans; [done|]. by apply prefix_app_r.
    + by rewrite entries_insert_ne.
  - intros cat Hcat. rewrite List.map_app in Hcat. cbn in Hcat.
    apply not_elem_of_app in Hcat as [Hdone Hthis].
    apply not_elem_of_cons in Hthis as [Hne _].
    destruct Hupdate as [->|(assets & _ & _ & ->)]; [by apply Hother|].
    rewrite lookup_insert_ne by done. by apply Hother.
Qed.

(** X12.  The cap adds up over a run: a category grows by at most ten
    entries for every pack of the catalogue that goes under it. *)
Theorem run_adds_at_most_ten_per_pack packs w cat :
  (length (entries (registry (after (run env base_dir packs w))) cat)
   <= length (entries (registry w) cat) + 10 * length (packs_under cat packs))%nat.
Proof.
  rewrite run_registry.
  refine (run_packs_registry
            (fun done reg =>
               (length (entries reg cat)
                <= length (entries (registry w) cat)
                   + 10 * length (packs_under cat done))%nat)
            _ packs [] w _); [|cbn; lia].
  intros done pack_id config reg reg' Hdone Hupdate.
  unfold packs_under in *. rewrite List.filter_app, length_app. cbn [List.filter snd].
  destruct Hupdate as [->|(assets & Hten & _ & ->)]; [lia|].
  destruct (decide (category config = cat)) as [<-|Hne].
  - rewrite entries_insert, length_app, bool_decide_eq_true_2 by done. cbn [length]. lia.
  - rewrite entries_insert_ne by done. lia.
Qed.

(** X13.  A pack without scene files is cataloged all the same, and its
    category appears in the registry: when the pack reaches its conversion
    loop and the locator found nothing, no converter is called, the pack
    returns, and the registry holds the category with the sequence it had
    (empty when it was new). *)
Theorem pack_without_scene_files pack_id config w :
  outcome (prepare env base_dir pack_id config w) = Ok tt ->
  located env base_dir pack_id config w = [] ->
  let r := process_asset_pack env base_dir pack_id config w in
  outcome r = Ok tt
  /\ conversions (events r) = []
  /\ subprocesses (events r) = []
  /\ registry (after r)
     = <[category config := entries (registry w) (category config)]> (registry w)
  /\ registry (after r) !! category config = Some (entries (registry w) (category config)).
Proof.
  cbv zeta. unfold located. rewrite process_asset_pack_steps, prepare_steps.
  pose proof (keeps_locate env base_dir pack_id config w) as Hreg3.
  pose proof (emits_locate env base_dir pack_id config w) as Hfetch.
  destruct (locate env base_dir pack_id config w) as [[usd_files|e] w3 evs3];
    cbn [outcome after events] in *; [|done].
  pose proof (keeps_mkdir_exist_ok (output_dir base_dir </> category config) w3) as Hreg4.
  pose proof (emits_mkdir_exist_ok fetch_call
                (output_dir base_dir </> category config) w3) as Hmk.
  destruct (mkdir_exist_ok _ w3) as [[[]|e] w4 evs4]; cbn [outcome after events] in *;
    [|done].
  intros _ ->. cbn [take convert_each]. unfold ret.
  cbn [outcome after events registry fs].
  rewrite !app_nil_r, Hreg4, Hreg3, lookup_insert_eq.
  assert (Hquiet : Forall fetch_call (evs3 ++ evs4)) by (by apply Forall_app).
  repeat split; try done.
  - by apply fetch_calls_convert_nothing.
  - clear -Hquiet. induction Hquiet as [|e evs He _ IH]; [done|]. by destruct e.
Qed.

End RegistryOverRun.

Lemma run_keeps_registry_well_filed_witness :
  well_filed
    (registry (after (run Samples.studio Samples.base
                        [("down", Samples.unreachable); ("p1", Samples.warehouse)]
                        Samples.empty_world))).
Proof.
  apply (run_keeps_registry_well_filed Samples.studio Samples.base
           [("down", Samples.unreachable); ("p1", Samples.warehouse)] Samples.empty_world).
  intros cat l Hl. cbn in Hl. by rewrite lookup_empty in Hl.
Defined.

Lemma pack_without_scene_files_witness :
  let r := process_asset_pack Samples.offline Samples.base "p1" Samples.warehouse
             Samples.barren_world in
  outcome r = Ok tt
  /\ conversions (events r) = []
  /\ subprocesses (events r) = []
  /\ registry (after r)
     = <[category Samples.warehouse :=
           entries (registry Samples.barren_world) (category Samples.warehouse)]>
         (registry Samples.barren_world)
  /\ registry (after r) !! category Samples.warehouse
     = Some (entries (registry Samples.barren_world) (category Samples.warehouse)).
Proof.
  apply (pack_without_scene_files Samples.offline Samples.base "p1" Samples.warehouse
           Samples.barren_world).
  - vm_compute. reflexivity.
  - vm_compute. reflexivity.
Defined.

(** ** Asset names *)

Lemma append_cons c (s1 s2 : string) : String c s1 +:+ s2 = String c (s1 +:+ s2).
Proof. done. Qed.

Lemma length_append (s1 s2 : string) :
  String.length (s1 +:+ s2) = (String.length s1 + String.length s2)%nat.
Proof.
  induction s1 as [|c s1 IH]; [done|]. rewrite append_cons. cbn [String.length].
  by rewrite IH.
Qed.

Lemma rfind_dot_append s1 s2 i found :
  rfind_dot (s1 +:+ s2) i found
  = rfind_dot s2 (i + String.length s1) (rfind_dot s1 i found).
Proof.
  revert i found. induction s1 as [|c s1 IH]; intros i found.
  - cbn [String.length rfind_dot]. change ("" +:+ s2) with s2. by rewrite Nat.add_0_r.
  - rewrite append_cons. cbn [rfind_dot String.length]. rewrite IH.
    by rewrite Nat.add_succ_r.
Qed.

Lemma substring_prefix (s1 s2 : string) :
  String.substring 0 (String.length s1) (s1 +:+ s2) = s1.
Proof.
  induction s1 as [|c s1 IH].
  - cbn [String.length]. by destruct s2.
  - rewrite append_cons. cbn [String.length String.substring]. by rewrite IH.
Qed.

(** The last dot of a recognized extension is its first character, and the
    extension is longer than the dot. *)
Lemma extension_dot ext i found :
  ext ∈ usd_extensions ->
  rfind_dot ext i found = Some i /\ (2 <= String.length ext)%nat.
Proof.
  unfold usd_extensions. intros Hext.
  repeat (apply elem_of_cons in Hext as [->|Hext]); try (by apply elem_of_nil in Hext);
    (split; [reflexivity | cbn; lia]).
Qed.

Lemma stem_of_scene_name dir s ext :
  ext ∈ usd_extensions -> s <> "" -> stem (dir </> (s +:+ ext)) = s.
Proof.
  intros Hext Hs. unfold stem. rewrite name_join. cbv zeta.
  rewrite rfind_dot_append. cbn [Nat.add].
  destruct (extension_dot ext (String.length s) (rfind_dot s 0%nat None) Hext)
    as [-> Hlen].
  rewrite length_append.
  assert ((0 <? String.length s)%nat = true) as ->.
  { apply Nat.ltb_lt. destruct s; [done | cbn; lia]. }
  assert ((String.length s <? String.length s + String.length ext - 1)%nat = true) as ->.
  { apply Nat.ltb_lt. lia. }
  apply substring_prefix.
Qed.

(** X14.  The asset name is the file name without its extension: a scene
    file named [s] followed by a recognized extension, with [s] not empty
    (dots inside [s] allowed), has stem [s], so its output is
    [output_dir/category/s.glb] and its entry has id [pack_id_s] and path
    [/assets/category/s.glb]; a file named by the bare extension (as [.usd])
    has no suffix for pathlib and keeps its whole name. *)
Theorem scene_file_asset_name base_dir pack_id config dir s ext :
  ext ∈ usd_extensions ->
  (s <> "" ->
   stem (dir </> (s +:+ ext)) = s
   /\ gltf_output base_dir config (dir </> (s +:+ ext))
      = output_dir base_dir </> category config </> (s +:+ ".glb")
   /\ a_id (asset_metadata pack_id config (stem (dir </> (s +:+ ext))))
      = pack_id +:+ "_" +:+ s
   /\ a_path (asset_metadata pack_id config (stem (dir </> (s +:+ ext))))
      = "/assets/" +:+ category config +:+ "/" +:+ s +:+ ".glb")
  /\ stem (dir </> ext) = ext.
Proof.
  intros Hext. split.
  - intros Hs. unfold gltf_output. rewrite stem_of_scene_name by done. by cbn.
  - unfold stem. rewrite name_join. cbv zeta.
    by destruct (extension_dot ext 0%nat None Hext) as [-> _].
Qed.

(** X15.  Scene files that differ only in their directory or their
    extension collide: they are given the same output path and the same
    metadata (the same id). *)
Theorem same_stem_collides base_dir pack_id config dir1 dir2 s ext1 ext2 :
  ext1 ∈ usd_extensions -> ext2 ∈ usd_extensions -> s <> "" ->
  gltf_output base_dir config (dir1 </> (s +:+ ext1))
  = gltf_output base_dir config (dir2 </> (s +:+ ext2))
  /\ asset_metadata pack_id config (stem (dir1 </> (s +:+ ext1)))
     = asset_metadata pack_id config (stem (dir2 </> (s +:+ ext2))).
Proof.
  intros H1 H2 Hs. unfold gltf_output. by rewrite !stem_of_scene_name.
Qed.

Lemma scene_file_asset_name_witness :
  (("crate.v2" : string) <> "" ->
   stem (["tree"] </> ("crate.v2" +:+ ".usda")) = "crate.v2"
   /\ gltf_output Samples.base Samples.warehouse (["tree"] </> ("crate.v2" +:+ ".usda"))
      = output_dir Samples.base </> category Samples.warehouse </> ("crate.v2" +:+ ".glb")
   /\ a_id (asset_metadata "p1" Samples.warehouse
              (stem (["tree"] </> ("crate.v2" +:+ ".usda"))))
      = "p1" +:+ "_" +:+ "crate.v2"
   /\ a_path (asset_metadata "p1" Samples.warehouse
                (stem (["tree"] </> ("crate.v2" +:+ ".usda"))))
      = "/assets/" +:+ category Samples.warehouse +:+ "/" +:+ "crate.v2" +:+ ".glb")
  /\ stem (["tree"] </> ".usda") = ".usda".
Proof.
  apply (scene_file_asset_name Samples.base "p1" Samples.warehouse ["tree"] "crate.v2" ".usda").
  apply list_elem_of_In. cbn. tauto.
Defined.

Lemma same_stem_collides_witness :
  gltf_output Samples.base Samples.warehouse (["tree"; "old"] </> ("crate" +:+ ".usd"))
  = gltf_output Samples.base Samples.warehouse (["tree"; "new"] </> ("crate" +:+ ".usdz"))
  /\ asset_metadata "p1" Samples.warehouse (stem (["tree"; "old"] </> ("crate" +:+ ".usd")))
     = asset_metadata "p1" Samples.warehouse (stem (["tree"; "new"] </> ("crate" +:+ ".usdz"))).
Proof.
  apply (same_stem_collides Samples.base "p1" Samples.warehouse
           ["tree"; "old"] ["tree"; "new"] "crate" ".usd" ".usdz").
  - apply list_elem_of_In. cbn. tauto.
  - apply list_elem_of_In. cbn. tauto.
  - discriminate.
Defined.

(** ** Processing a pack twice *)

Section Rerun.

Variable env : environment.
Variable base_dir : path.
Variable pack_id : string.
Variable config : pack_config.

Lemma category_dir_is_not_script_path :
  output_dir base_dir </> category config <> script_path base_dir.
Proof.
  unfold script_path, download_dir, output_dir, join. rewrite <- !app_assoc. cbn [app].
  intros H. apply app_inv_head in H. discriminate.
Qed.

Lemma category_dir_is_not_extract_dir :
  output_dir base_dir </> category config <> download_dir base_dir </> pack_id.
Proof.
  unfold download_dir, output_dir, join. rewrite <- !app_assoc. cbn [app].
  intros H. apply app_inv_head in H. discriminate.
Qed.

Lemma extract_dir_is_not_script_path :
  pack_id <> "convert.py" -> download_dir base_dir </> pack_id <> script_path base_dir.
Proof.
  intros Hid. unfold script_path, join. intros H. apply app_inv_head in H. congruence.
Qed.

(** A directory that was made: it stands, and nothing else moved. *)
Lemma mkdir_exist_ok_made p w w' evs :
  mkdir_exist_ok p w = Run (Ok tt) w' evs ->
  (exists children, fs w' !! p = Some (EDir children))
  /\ (forall q, q <> p -> fs w' !! q = fs w !! q)
  /\ registry w' = registry w
  /\ evs = [].
Proof.
  rewrite mkdir_exist_ok_run.
  destruct (fs w !! p) as [[c|children]|] eqn:L; [done| |]; intros [= <- <-].
  - by eauto.
  - cbn [fs registry]. rewrite lookup_insert_eq.
    repeat split; [by eauto|]. intros q Hq. by rewrite lookup_insert_ne.
Qed.

(** The locator after a download and an extraction that are in place. *)
Lemma locate_again w :
  path_exists (fs w) (zip_path_of base_dir pack_id) = true ->
  path_exists (fs w) (download_dir base_dir </> pack_id) = true ->
  locate env base_dir pack_id config w
  = Run (Ok (List.flat_map
               (fun ext => List.filter (has_extension ext)
                             (scan (fs w) (download_dir base_dir </> pack_id)))
               usd_extensions))
        w [Processing pack_id].
Proof.
  intros Hzip Hdir. unfold locate. unfold bind at 1. unfold emit. unfold bind at 1.
  rewrite download_asset_pack_present by done.
  unfold bind. rewrite extract_pack_present by done.
  by rewrite find_usd_files_run.
Qed.

(** What a locator that returned leaves: the archive, the extracted tree,
    and the files it found there. *)
Lemma locate_returned w usd_files w3 evs3 :
  locate env base_dir pack_id config w = Run (Ok usd_files) w3 evs3 ->
  path_exists (fs w3) (zip_path_of base_dir pack_id) = true
  /\ path_exists (fs w3) (download_dir base_dir </> pack_id) = true
  /\ usd_files
     = List.flat_map
         (fun ext => List.filter (has_extension ext)
                       (scan (fs w3) (download_dir base_dir </> pack_id)))
         usd_extensions.
Proof.
  unfold locate. unfold bind at 1. unfold emit. unfold bind at 1.
  pose proof (download_asset_pack_leaves_archive env base_dir pack_id config w) as Hzip.
  destruct (download_asset_pack env base_dir pack_id config w) as [[zip_path|e] w1 evs1];
    [|done].
  specialize (Hzip zip_path eq_refl). cbn [after] in Hzip.
  unfold bind.
  pose proof (never_deletes_extract_pack env base_dir zip_path pack_id w1 _ Hzip) as Hzip2.
  assert (Hdir : forall d, outcome (extract_pack env base_dir zip_path pack_id w1) = Ok d ->
            d = download_dir base_dir </> pack_id
            /\ path_exists (fs (after (extract_pack env base_dir zip_path pack_id w1)))
                 (download_dir base_dir </> pack_id) = true).
  { intros d.
    destruct (path_exists (fs w1) (download_dir base_dir </> pack_id)) eqn:Hex.
    - rewrite extract_pack_present by done. by intros [= <-].
    - rewrite extract_pack_run by done.
      destruct (fs w1 !! zip_path) as [[[bytes|reg]|children]|]; try done.
      destruct (unzip env bytes); [|done]. intros [= <-]. split; [done|].
      unfold path_exists. cbn [after fs]. by rewrite lookup_insert_eq. }
  destruct (extract_pack env base_dir zip_path pack_id w1) as [[extract_dir|e] w2 evs2];
    [|done].
  destruct (Hdir extract_dir eq_refl) as [-> Hdir2]. cbn [after] in *.
  rewrite find_usd_files_run. by intros [= <- <- _].
Qed.

(** X17.  Processing a pack again records it again: for a pack (not named
    [convert.py]) that reaches its conversion loop and whose conversion
    attempts on the first ten located files each return a boolean, a second
    [process_asset_pack] from the world the first one left makes no network
    call and, when its attempts end as those of the first pass did, returns
    and appends the same entries once more: the category ends with them
    twice. *)
Theorem reprocessing_duplicates_entries w :
  let usd_files := located env base_dir pack_id config w in
  let first := process_asset_pack env base_dir pack_id config w in
  let second := process_asset_pack env base_dir pack_id config (after first) in
  let results :=
    attempts env base_dir config (take 10 usd_files)
      (after (prepare env base_dir pack_id config w)) in
  let again :=
    attempts env base_dir config (take 10 usd_files)
      (after (prepare env base_dir pack_id config (after first))) in
  let added := metadata_of pack_id config (picked (take 10 usd_files) results) in
  pack_id <> "convert.py" ->
  outcome (prepare env base_dir pack_id config w) = Ok tt ->
  all_returned results ->
  again = results ->
  outcome first = Ok tt
  /\ outcome second = Ok tt
  /\ network_calls (events second) = []
  /\ entries (registry (after first)) (category config)
     = entries (registry w) (category config) ++ added
  /\ entries (registry (after second)) (category config)
     = entries (registry w) (category config) ++ added ++ added.
Proof.
  cbv zeta. unfold located. intros Hid.
  pose proof (extract_dir_is_not_script_path Hid) as Hne1.
  pose proof category_dir_is_not_script_path as Hne2.
  pose proof category_dir_is_not_extract_dir as Hne3.
  rewrite (process_asset_pack_steps env base_dir pack_id config w), (prepare_steps _ _ _ _ w).
  pose proof (keeps_locate env base_dir pack_id config w) as Hreg3.
  pose proof (locate_returned w) as Hlocated.
  destruct (locate env base_dir pack_id config w) as [[usd_files|e] w3 evs3];
    cbn [outcome after events] in *; [|done].
  destruct (Hlocated usd_files w3 evs3 eq_refl) as (Hzip3 & Hdir3 & Hfiles). clear Hlocated.
  pose proof (mkdir_exist_ok_made (output_dir base_dir </> category config) w3) as Hmade.
  pose proof (never_deletes_mkdir_exist_ok (output_dir base_dir </> category config) w3)
    as Hkeep4.
  destruct (mkdir_exist_ok _ w3) as [[[]|e] w4 evs4];
    cbn [outcome after events] in *; [|done].
  destruct (Hmade w4 evs4 eq_refl) as ((cdir & Hcat4) & Hsame4 & Hreg4 & ->). clear Hmade.
  intros _ Hall.
  pose proof (convert_each_attempts env base_dir pack_id config
                (take 10 usd_files) [] w4 Hall) as Hloop.
  pose proof (keeps_convert_each env base_dir pack_id config (take 10 usd_files) [] w4)
    as Hreg5.
  pose proof (convert_each_elsewhere env base_dir pack_id config
                (take 10 usd_files) [] w4) as Hsame5.
  pose proof (never_deletes_convert_each env base_dir pack_id config
                (take 10 usd_files) [] w4) as Hkeep5.
  destruct (convert_each _ _ _ _ _ _ w4) as [o w5 evs5].
  cbn [outcome after events registry] in *. subst o.
  cbn [outcome after events registry fs app].
  set (reg' := <[category config := _]> (registry w5)).
  set (w' := World (fs w5) reg').
  assert (Hzip' : path_exists (fs w') (zip_path_of base_dir pack_id) = true).
  { cbn [fs w']. apply Hkeep5, Hkeep4, Hzip3. }
  assert (Hdir' : path_exists (fs w') (download_dir base_dir </> pack_id) = true).
  { cbn [fs w']. apply Hkeep5, Hkeep4, Hdir3. }
  assert (Hlocate' : locate env base_dir pack_id config w'
                     = Run (Ok usd_files) w' [Processing pack_id]).
  { rewrite locate_again by done. do 2 f_equal. rewrite Hfiles. unfold scan. cbn [fs w'].
    by rewrite Hsame5, Hsame4 by done. }
  assert (Hmkdir' : mkdir_exist_ok (output_dir base_dir </> category config) w'
                    = Run (Ok tt) w' []).
  { rewrite mkdir_exist_ok_run. cbn [fs w']. by rewrite Hsame5, Hcat4 by done. }
  rewrite (prepare_steps _ _ _ _ w'), Hlocate', Hmkdir'. cbn [after].
  intros Hagain.
  assert (Hall' : all_returned (attempts env base_dir config (take 10 usd_files) w'))
    by (by rewrite Hagain).
  pose proof (convert_each_attempts env base_dir pack_id config
                (take 10 usd_files) [] w' Hall') as Hloop'.
  pose proof (keeps_convert_each env base_dir pack_id config (take 10 usd_files) [] w')
    as Hreg5'.
  rewrite Hagain in Hloop'.
  assert (Hfirst : entries reg' (category config)
                   = entries (registry w) (category config)
                     ++ metadata_of pack_id config
                          (picked (take 10 usd_files)
                             (attempts env base_dir config (take 10 usd_files) w4))).
  { subst reg'. by rewrite entries_insert, Hreg5, Hreg4, Hreg3. }
  split; [done|]. split; [|split; [|split]].
  - rewrite process_asset_pack_steps, Hlocate', Hmkdir'.
    by destruct (convert_each _ _ _ _ _ _ w') as [o w6 evs6]; cbn [outcome] in *; subst o.
  - by apply process_asset_pack_offline.
  - done.
  - rewrite process_asset_pack_steps, Hlocate', Hmkdir'.
    destruct (convert_each _ _ _ _ _ _ w') as [o w6 evs6];
      cbn [outcome after registry] in *; subst o.
    cbn [after registry]. rewrite entries_insert, Hreg5'. cbn [registry w'].
    rewrite Hfirst. cbn [app]. by rewrite <- app_assoc.
Qed.

End Rerun.

Lemma reprocessing_duplicates_entries_witness :
  let usd_files :=
    located Samples.studio Samples.base "p1" Samples.warehouse Samples.empty_world in
  let first := process_asset_pack Samples.studio Samples.base "p1" Samples.warehouse
                 Samples.empty_world in
  let second := process_asset_pack Samples.studio Samples.base "p1" Samples.warehouse
                  (after first) in
  let results :=
    attempts Samples.studio Samples.base Samples.warehouse (take 10 usd_files)
      (after (prepare Samples.studio Samples.base "p1" Samples.warehouse
                Samples.empty_world)) in
  let added := metadata_of "p1" Samples.warehouse (picked (take 10 usd_files) results) in
  outcome first = Ok tt
  /\ outcome second = Ok tt
  /\ network_calls (events second) = []
  /\ entries (registry (after first)) (category Samples.warehouse)
     = entries (registry Samples.empty_world) (category Samples.warehouse) ++ added
  /\ entries (registry (after second)) (category Samples.warehouse)
     = entries (registry Samples.empty_world) (category Samples.warehouse) ++ added ++ added.
Proof.
  apply (reprocessing_duplicates_entries Samples.studio Samples.base "p1" Samples.warehouse
           Samples.empty_world).
  - discriminate.
  - vm_compute. reflexivity.
  - intros e He. vm_compute in He.
    repeat (apply elem_of_cons in He as [He|He]; [discriminate He|]).
    by apply elem_of_nil in He.
  - vm_compute. reflexivity.
Defined.
